(** * ArtLink backend: request handlers and schemas

    A shallow embedding of [main.py] (the request handlers) and
    [schemas.py] (the entity schemas), with the properties of the
    specification proved about it.

    Layout:
    - [Py]: JSON-decoded Python values, [dict.get], the builtins [float()]
      and [int()], float arithmetic (IEEE binary64 through [SpecFloat]);
    - [Pydantic]: schema-driven validation (required fields, defaults,
      [ge] bounds, [Literal] sets, [Optional], [List], nested models);
    - [Schemas]: the classes of [schemas.py] and [OrderInput] of [main.py];
    - [Database]: the document store behind [create_document] and
      [get_documents];
    - [Main]: the handlers of [main.py], the routes in front of them and
      the diagnostics;
    - [Run]: instances of the parameters and sample requests, to evaluate
      the handlers;
    - [Spec]: the vocabulary of the specification;
    - the properties: those of the specification first, then further
      properties of the schemas, of [create_order], of the list handlers
      and of the diagnostics. *)

From Stdlib Require Import ZArith List Ascii String Bool Lia.
From Stdlib Require Import Floats.SpecFloat.
Import ListNotations.

Local Open Scope string_scope.
Local Open Scope list_scope.

#[local] Set Warnings "-register-all".

(* ===================================================================== *)
(** * Python values and builtins *)
(* ===================================================================== *)

Module Py.

(** A Python float is an IEEE 754 binary64 number. *)
Definition float := spec_float.

Definition prec : Z := 53.
Definition emax : Z := 1024.

Definition fzero : float := S754_zero false.
Definition fadd : float -> float -> float := SFadd prec emax.
Definition fmul : float -> float -> float := SFmul prec emax.
(** [x < y] and [x <= y] on floats; both are [false] when a NaN is involved. *)
Definition flt : float -> float -> bool := SFltb.
Definition fle : float -> float -> bool := SFleb.

(** What [json.loads] produces: [None], [bool], [int], [float], [str],
    [list] and [dict] (string keys, first binding of a key is the live one). *)
Inductive json : Type :=
| JNull
| JBool (b : bool)
| JInt (z : Z)
| JFloat (f : float)
| JStr (s : string)
| JList (l : list json)
| JObj (o : list (string * json)).

Definition dict := list (string * json).

(** [d.get(key)]: [None] when the key is absent. *)
Fixpoint lookup (key : string) (d : dict) : option json :=
  match d with
  | [] => None
  | (k, v) :: d' => if String.eqb k key then Some v else lookup key d'
  end.

(** [d.get(key, default)]. *)
Definition dict_get (d : dict) (key : string) (default : json) : json :=
  match lookup key d with
  | Some v => v
  | None => default
  end.

(** Exceptions a handler can raise, and the error kinds of the
    specification. [ValidationFailure] and [MissingRequiredParameter] are
    raised by the request layer before the handler runs (client errors);
    [ValidationError] is pydantic's exception when a model is built inside a
    handler. *)
Inductive exn : Type :=
| TypeError
| ValueError
| OverflowError
| ValidationError
| ValidationFailure
| MissingRequiredParameter
| StorageUnavailable.

Inductive result (A : Type) : Type :=
| Ok (a : A)
| Raise (e : exn).
Arguments Ok {A} a.
Arguments Raise {A} e.

Definition bind {A B : Type} (r : result A) (k : A -> result B) : result B :=
  match r with
  | Ok a => k a
  | Raise e => Raise e
  end.

(** Parsing of a [str] by [float()] and [int()]: the grammar of numeric
    literals (whitespace, signs, underscores, exponents, [inf], [nan],
    Unicode digits) belongs to the interpreter and is a parameter here.
    [None] stands for [ValueError]. *)
Class StrParse : Type := {
  float_of_str : string -> option float;
  int_of_str : string -> option Z
}.

(** [int -> float]: correctly rounded (ties to even); [None] when the
    integer is too large for a finite binary64 ([OverflowError]). *)
Definition float_of_int (z : Z) : option float :=
  match binary_normalize prec emax z 0 false with
  | S754_infinity _ => None
  | f => Some f
  end.

(** Truncation of a finite float towards zero. *)
Definition trunc (f : float) : Z :=
  match f with
  | S754_finite s m e =>
      let a := match e with
               | Zneg p => Z.shiftr (Zpos m) (Zpos p)
               | _ => Z.shiftl (Zpos m) e
               end in
      if s then Z.opp a else a
  | _ => 0%Z
  end.

Section Builtins.
Context {SP : StrParse}.

(** [float(v)] *)
Definition py_float (v : json) : result float :=
  match v with
  | JFloat f => Ok f
  | JInt z => match float_of_int z with
              | Some f => Ok f
              | None => Raise OverflowError
              end
  | JBool b => Ok (if b then S754_finite false 4503599627370496 (-52) else fzero)
  | JStr s => match float_of_str s with
              | Some f => Ok f
              | None => Raise ValueError
              end
  | JNull | JList _ | JObj _ => Raise TypeError
  end.

(** [int(v)] *)
Definition py_int (v : json) : result Z :=
  match v with
  | JInt z => Ok z
  | JBool b => Ok (if b then 1%Z else 0%Z)
  | JFloat f => match f with
                | S754_nan => Raise ValueError
                | S754_infinity _ => Raise OverflowError
                | _ => Ok (trunc f)
                end
  | JStr s => match int_of_str s with
              | Some z => Ok z
              | None => Raise ValueError
              end
  | JNull | JList _ | JObj _ => Raise TypeError
  end.

End Builtins.

(** [x * n] for a float [x] and an int [n]: the int is converted first. *)
Definition fmul_int (x : float) (n : Z) : result float :=
  match float_of_int n with
  | Some y => Ok (fmul x y)
  | None => Raise OverflowError
  end.

(** Truthiness of an [Optional[str]]: [None] and the empty string are falsy. *)
Definition truthy (s : option string) : bool :=
  match s with
  | Some t => negb (String.eqb t "")
  | None => false
  end.

(** [d[key] = value]: the value of a key that is there is replaced in
    place, a new key goes last. *)
Fixpoint dict_set (key : string) (value : json) (d : dict) : dict :=
  match d with
  | [] => [(key, value)]
  | (k, v) :: d' =>
      if String.eqb k key then (k, value) :: d' else (k, v) :: dict_set key value d'
  end.

(** A text is held as the bytes of its UTF-8 encoding: a character is a
    lead byte followed by its continuation bytes (those from 128 to 191). *)
Definition continuation (c : ascii) : bool :=
  let n := nat_of_ascii c in
  (Nat.leb 128 n && Nat.ltb n 192)%bool.

(** [len(s)], the number of characters of a text. *)
Fixpoint str_len (s : string) : nat :=
  match s with
  | EmptyString => O
  | String c r => if continuation c then str_len r else S (str_len r)
  end.

(** [s[:n]], the first [n] characters of a text (all of it when it has
    fewer): the bytes up to the lead byte of character [n + 1]. *)
Fixpoint str_prefix (n : nat) (s : string) : string :=
  match s with
  | EmptyString => EmptyString
  | String c r =>
      if continuation c then String c (str_prefix n r)
      else match n with
           | O => EmptyString
           | S k => String c (str_prefix k r)
           end
  end.

End Py.

Import Py.

Notation "x <- e ;; k" := (bind e (fun x => k))
  (at level 61, e at next level, right associativity).

(* ===================================================================== *)
(** * Pydantic models *)
(* ===================================================================== *)

Module Pydantic.

(** The conversion table for primitive field types (which inputs a [str],
    [int], [float], [bool], [dict], [HttpUrl] or [datetime] field accepts,
    and what it turns them into) belongs to the validation library and is a
    parameter. [None] is a validation error for the field. *)
Class Conv : Type := {
  conv_str : json -> option string;
  conv_int : json -> option Z;
  conv_float : json -> option float;
  conv_bool : json -> option bool;
  conv_dict : json -> option dict;
  conv_url : json -> option json;
  conv_datetime : json -> option json
}.

(** The only thing assumed of a conversion table: a value that already has
    the type of the field is accepted unchanged. *)
Class ConvExact (C : Conv) : Prop := {
  conv_str_exact : forall s, conv_str (JStr s) = Some s;
  conv_int_exact : forall z, conv_int (JInt z) = Some z;
  conv_float_exact : forall f, conv_float (JFloat f) = Some f;
  conv_dict_exact : forall o, conv_dict (JObj o) = Some o
}.

(** A field either is required ([Field(...)], or no default) or has a
    default, which is used as it is when the field is absent. *)
Inductive default : Type :=
| Required
| Default (v : json).

(** Field types. [TInt ge] and [TFloat ge] carry the optional lower bound
    of [Field(..., ge=...)]; [TModel] is a nested [BaseModel]. *)
Inductive ftype : Type :=
| TStr
| TInt (ge : option Z)
| TFloat (ge : option float)
| TBool
| TDict
| THttpUrl
| TDatetime
| TLiteral (choices : list string)
| TOptional (t : ftype)
| TList (t : ftype)
| TModel (fields : list (string * ftype * default)).

Definition field : Type := (string * ftype * default)%type.
Definition schema : Type := list field.

Definition fname (f : field) : string := fst (fst f).
Definition ftyp (f : field) : ftype := snd (fst f).
Definition fdefault (f : field) : default := snd f.

Definition is_required (f : field) : bool :=
  match fdefault f with
  | Required => true
  | Default _ => false
  end.

(** [ge=b]: the value must satisfy [v >= b]. *)
Definition ge_int (b : option Z) (z : Z) : bool :=
  match b with
  | Some lo => Z.leb lo z
  | None => true
  end.

Definition ge_float (b : option float) (x : float) : bool :=
  match b with
  | Some lo => fle lo x
  | None => true
  end.

Definition guard (b : bool) (v : json) : option json :=
  if b then Some v else None.

(** Validation of every element of a list, in order. *)
Fixpoint all_valid {A B : Type} (f : A -> option B) (l : list A) : option (list B) :=
  match l with
  | [] => Some []
  | x :: l' =>
      match f x with
      | Some y => option_map (cons y) (all_valid f l')
      | None => None
      end
  end.

Section Validation.
Context {C : Conv}.

(** Validation of a value against a field type. Keys of a nested model that
    the schema does not declare are dropped. The result is the validated
    value; [None] is failure (pydantic reports every offending field, the
    list is not modelled: only whether validation fails). *)
Fixpoint validate (t : ftype) (v : json) {struct t} : option json :=
  match t with
  | TStr => option_map JStr (conv_str v)
  | TInt ge =>
      match conv_int v with
      | Some z => guard (ge_int ge z) (JInt z)
      | None => None
      end
  | TFloat ge =>
      match conv_float v with
      | Some x => guard (ge_float ge x) (JFloat x)
      | None => None
      end
  | TBool => option_map JBool (conv_bool v)
  | TDict => option_map JObj (conv_dict v)
  | THttpUrl => conv_url v
  | TDatetime => conv_datetime v
  | TLiteral choices =>
      match v with
      | JStr s => guard (existsb (String.eqb s) choices) v
      | _ => None
      end
  | TOptional t' =>
      match v with
      | JNull => Some JNull
      | _ => validate t' v
      end
  | TList t' =>
      match v with
      | JList l => option_map JList (all_valid (validate t') l)
      | _ => None
      end
  | TModel fields =>
      match conv_dict v with
      | Some input =>
          option_map JObj
            ((fix go (fs : list (string * ftype * default)) : option dict :=
                match fs with
                | [] => Some []
                | (n, t', d) :: fs' =>
                    let r := match lookup n input with
                             | Some x => validate t' x
                             | None => match d with
                                       | Default dv => Some dv
                                       | Required => None
                                       end
                             end in
                    match r with
                    | Some y => option_map (cons (n, y)) (go fs')
                    | None => None
                    end
                end) fields)
      | None => None
      end
  end.

(** One field of a model: the input value when the key is present, else
    the default, else an error. *)
Definition validate_field (f : field) (input : dict) : option json :=
  match lookup (fname f) input with
  | Some v => validate (ftyp f) v
  | None => match fdefault f with
            | Default d => Some d
            | Required => None
            end
  end.

(** The fields of a model, in declaration order. *)
Fixpoint validate_fields (fs : schema) (input : dict) : option dict :=
  match fs with
  | [] => Some []
  | f :: fs' =>
      match validate_field f input with
      | Some y => option_map (cons (fname f, y)) (validate_fields fs' input)
      | None => None
      end
  end.

(** Construction of a model from keyword arguments or from a request body:
    the validated model as a dict, like [model_dump()]. *)
Definition validate_model (s : schema) (v : json) : option dict :=
  match validate (TModel s) v with
  | Some (JObj m) => Some m
  | _ => None
  end.

End Validation.

End Pydantic.

Import Pydantic.

(* ===================================================================== *)
(** * schemas.py *)
(* ===================================================================== *)

Module Schemas.

Definition zero : float := fzero.

Definition User : schema :=
  [ ("name", TStr, Required);
    ("email", TStr, Required);
    ("role", TLiteral ["artist"; "collector"; "both"], Default (JStr "both"));
    ("avatar_url", TOptional THttpUrl, Default JNull);
    ("bio", TOptional TStr, Default (JStr ""));
    ("location", TOptional TStr, Default JNull);
    ("is_active", TBool, Default (JBool true)) ].

Definition Artwork : schema :=
  [ ("artist_id", TStr, Required);
    ("title", TStr, Required);
    ("story", TOptional TStr, Default JNull);
    ("media", TOptional TStr, Default JNull);
    ("dimensions", TOptional TStr, Default JNull);
    ("year", TOptional (TInt None), Default JNull);
    ("images", TList THttpUrl, Default (JList []));
    ("price_range", TOptional TStr, Default JNull);
    ("availability_status",
       TLiteral ["available"; "reserved"; "sold"; "commission_only"],
       Default (JStr "available"));
    ("tags", TList TStr, Default (JList []));
    ("location", TOptional TStr, Default JNull);
    ("shipping_options", TList TStr,
       Default (JList [JStr "artist-arranged"; JStr "insured-courier";
                       JStr "local-pickup"]));
    ("likes", TInt None, Default (JInt 0));
    ("views", TInt None, Default (JInt 0)) ].

Definition PurchaseRequest : schema :=
  [ ("artwork_id", TStr, Required);
    ("buyer_name", TStr, Required);
    ("buyer_email", TStr, Required);
    ("message", TOptional TStr, Default (JStr ""));
    ("status", TLiteral ["new"; "in_review"; "accepted"; "declined"],
       Default (JStr "new")) ].

Definition Supply : schema :=
  [ ("title", TStr, Required);
    ("description", TOptional TStr, Default JNull);
    ("price", TFloat (Some zero), Required);
    ("category", TStr, Required);
    ("images", TList THttpUrl, Default (JList []));
    ("stock", TInt (Some 0%Z), Default (JInt 0));
    ("brand", TOptional TStr, Default JNull) ].

Definition OrderItem : schema :=
  [ ("supply_id", TStr, Required);
    ("title", TStr, Required);
    ("price", TFloat None, Required);
    ("quantity", TInt (Some 1%Z), Default (JInt 1)) ].

Definition Order : schema :=
  [ ("buyer_name", TStr, Required);
    ("buyer_email", TStr, Required);
    ("shipping_address", TStr, Required);
    ("items", TList (TModel OrderItem), Required);
    ("total_amount", TFloat (Some zero), Required);
    ("status",
       TLiteral ["pending"; "paid"; "shipped"; "delivered"; "cancelled"],
       Default (JStr "pending")) ].

Definition Post : schema :=
  [ ("author_id", TStr, Required);
    ("text", TStr, Required);
    ("images", TList THttpUrl, Default (JList []));
    ("tags", TList TStr, Default (JList []));
    ("likes", TInt None, Default (JInt 0));
    ("comments_count", TInt None, Default (JInt 0)) ].

Definition Comment : schema :=
  [ ("post_id", TStr, Required);
    ("author_id", TStr, Required);
    ("text", TStr, Required);
    ("likes", TInt None, Default (JInt 0));
    ("created_at", TOptional TDatetime, Default JNull) ].

End Schemas.

(* ===================================================================== *)
(** * The document store *)
(* ===================================================================== *)

Module Database.

(** Modelled from the spec: a stored record of the [database] module
    (whose source is not available), the implicit identity field assigned
    at creation together with the fields of the validated entity. *)
Record document : Type := {
  doc_id : nat;
  doc_data : dict
}.

(** Modelled from the spec: the store behind [create_document] and
    [get_documents] (module [database], whose source is not available).
    Collections are keyed by name; a collection keeps its records in the
    order of the store's natural scan, here the order of creation. The store
    may be unreachable. *)
Record store : Type := {
  reachable : bool;
  next_id : nat;
  records : list (string * document)
}.

(** Modelled from the spec: the filters that [get_documents] of the
    [database] module supports, equality with a value and set-membership
    ([$in]: the field contains one of a given set of values). The handlers
    only ever compare with strings. *)
Inductive cond : Type :=
| Equals (v : string)
| InSet (vs : list string).

(** Modelled from the spec: the filter argument of [get_documents], one
    condition per field. *)
Definition filter_dict : Type := list (string * cond).

(** Modelled from the spec: the comparison of a stored value with a string
    of a filter, used by [get_documents]. *)
Definition is_str (s : string) (v : json) : bool :=
  match v with
  | JStr t => String.eqb t s
  | _ => false
  end.

(** Modelled from the spec: whether a condition of [get_documents] holds of
    a field; an absent field satisfies none, membership asks for a list. *)
Definition holds (c : cond) (v : option json) : bool :=
  match c, v with
  | Equals s, Some x => is_str s x
  | InSet vs, Some (JList l) => existsb (fun s => existsb (is_str s) l) vs
  | _, _ => false
  end.

(** Modelled from the spec: the records [get_documents] keeps, those of
    which every condition of the filter holds. *)
Definition matches (filt : filter_dict) (d : document) : bool :=
  forallb (fun kc => holds (snd kc) (lookup (fst kc) (doc_data d))) filt.

(** Modelled from the spec: the collection of the [database] module with
    the given name (the lowercased entity name), in the store's order. *)
Definition collection (name : string) (st : store) : list document :=
  map snd (filter (fun r => String.eqb (fst r) name) (records st)).

(** Modelled from the spec: the [limit] of [get_documents], up to that
    many records, all of them when there is none. *)
Definition limited {A : Type} (limit : option nat) (l : list A) : list A :=
  match limit with
  | Some n => firstn n l
  | None => l
  end.

(** Modelled from the spec: [create_document] of the [database] module.
    [create(entityType, value) -> id] assigns a new
    unique identifier, writes the record, returns the identifier, and fails
    with [StorageUnavailable] when the store is not reachable. *)
Definition create_document (name : string) (data : dict) (st : store)
  : result nat * store :=
  if reachable st then
    (Ok (next_id st),
     {| reachable := true;
        next_id := S (next_id st);
        records := records st ++ [(name, {| doc_id := next_id st; doc_data := data |})] |})
  else (Raise StorageUnavailable, st).

(** Modelled from the spec: [get_documents] of the [database] module.
    [list(entityType, filter, limit)] returns up to
    [limit] records matching [filter] in the store's order; an absent filter
    matches everything and an absent limit is no limit. *)
Definition get_documents (name : string) (filt : option filter_dict)
    (limit : option nat) (st : store) : result (list document) :=
  if reachable st then
    Ok (limited limit
          (filter (matches (match filt with Some f => f | None => [] end))
                  (collection name st)))
  else Raise StorageUnavailable.

End Database.

Import Database.

(* ===================================================================== *)
(** * main.py *)
(* ===================================================================== *)

Module Main.

(** A handler runs against the store and may write to it. *)
Definition handler (A : Type) : Type := store -> result A * store.

(** [class OrderInput(BaseModel)] *)
Record OrderInput : Type := {
  buyer_name : string;
  buyer_email : string;
  shipping_address : string;
  items : list dict
}.

Section Handlers.
Context {SP : StrParse} {C : Conv}.

(** Validation of a request body as [OrderInput]: four required fields,
    [items] a list of dicts; any other key of the body is ignored. *)
Definition validate_OrderInput (body : json) : option OrderInput :=
  match conv_dict body with
  | Some input =>
      match option_map conv_str (lookup "buyer_name" input),
            option_map conv_str (lookup "buyer_email" input),
            option_map conv_str (lookup "shipping_address" input),
            lookup "items" input with
      | Some (Some n), Some (Some e), Some (Some a), Some (JList l) =>
          option_map (Build_OrderInput n e a) (all_valid conv_dict l)
      | _, _, _, _ => None
      end
  | None => None
  end.

(** The request layer in front of a handler that takes a model: the body
    is validated first, and the handler only runs on a valid model. *)
Definition with_model (s : schema) (h : dict -> handler nat) (body : json)
  : handler nat :=
  fun st =>
    match validate_model s body with
    | Some m => h m st
    | None => (Raise ValidationFailure, st)
    end.

(** A list handler reads the store and leaves it as it is. *)
Definition reading {A : Type} (q : store -> result A) : handler A :=
  fun st => (q st, st).

(** ** Accounts *)

Definition create_user (user : dict) : handler nat :=
  create_document "user" user.

Definition list_users : handler (list document) :=
  reading (get_documents "user" None None).

(** ** Artwork showcase *)

Definition create_artwork (artwork : dict) : handler nat :=
  create_document "artwork" artwork.

Definition list_artworks (tag : option string) : handler (list document) :=
  let filt := match tag with
              | Some t => if truthy tag then [("tags", InSet [t])] else []
              | None => []
              end in
  reading (get_documents "artwork" (Some filt) (Some 50)).

Definition create_purchase_request (req : dict) : handler nat :=
  create_document "purchaserequest" req.

(** ** Supplies store *)

Definition create_supply (supply : dict) : handler nat :=
  create_document "supply" supply.

Definition list_supplies (category : option string) : handler (list document) :=
  let filt := match category with
              | Some c => if truthy category then [("category", Equals c)] else []
              | None => []
              end in
  reading (get_documents "supply" (Some filt) (Some 100)).

(** The loop of [create_order]: [total] is the accumulator. *)
Fixpoint order_total (its : list dict) (total : float) : result float :=
  match its with
  | [] => Ok total
  | item :: rest =>
      price <- py_float (dict_get item "price" (JInt 0)) ;;
      qty <- py_int (dict_get item "quantity" (JInt 1)) ;;
      line <- fmul_int price qty ;;
      order_total rest (fadd total line)
  end.

(** The [Order] built by [create_order], as the dict handed to the store. *)
Definition order_doc (order : OrderInput) : result dict :=
  total <- order_total (items order) fzero ;;
  match validate_fields Schemas.Order
          [ ("buyer_name", JStr (buyer_name order));
            ("buyer_email", JStr (buyer_email order));
            ("shipping_address", JStr (shipping_address order));
            ("items", JList (map JObj (items order)));
            ("total_amount", JFloat total);
            ("status", JStr "pending") ] with
  | Some doc => Ok doc
  | None => Raise ValidationError
  end.

Definition create_order (order : OrderInput) : handler nat :=
  fun st =>
    match order_doc order with
    | Ok doc => create_document "order" doc st
    | Raise e => (Raise e, st)
    end.

Definition list_orders : handler (list document) :=
  reading (get_documents "order" (Some []) (Some 50)).

(** ** Community *)

Definition create_post (post : dict) : handler nat :=
  create_document "post" post.

Definition list_posts (tag : option string) : handler (list document) :=
  let filt := match tag with
              | Some t => if truthy tag then [("tags", InSet [t])] else []
              | None => []
              end in
  reading (get_documents "post" (Some filt) (Some 50)).

Definition create_comment (comment : dict) : handler nat :=
  create_document "comment" comment.

Definition list_comments (post_id : string) : handler (list document) :=
  reading (get_documents "comment" (Some [("post_id", Equals post_id)]) (Some 100)).

(** ** Routes *)

Definition POST_users : json -> handler nat := with_model Schemas.User create_user.
Definition GET_users : handler (list document) := list_users.

Definition POST_artworks : json -> handler nat :=
  with_model Schemas.Artwork create_artwork.
Definition GET_artworks (tag : option string) : handler (list document) :=
  list_artworks tag.

Definition POST_purchase_requests : json -> handler nat :=
  with_model Schemas.PurchaseRequest create_purchase_request.

Definition POST_supplies : json -> handler nat :=
  with_model Schemas.Supply create_supply.
Definition GET_supplies (category : option string) : handler (list document) :=
  list_supplies category.

Definition POST_orders (body : json) : handler nat :=
  fun st =>
    match validate_OrderInput body with
    | Some order => create_order order st
    | None => (Raise ValidationFailure, st)
    end.
Definition GET_orders : handler (list document) := list_orders.

Definition POST_posts : json -> handler nat := with_model Schemas.Post create_post.
Definition GET_posts (tag : option string) : handler (list document) :=
  list_posts tag.

Definition POST_comments : json -> handler nat :=
  with_model Schemas.Comment create_comment.

(** [post_id: str] has no default: the parameter is required, and a
    request without it is answered before the handler is called. *)
Definition GET_comments (post_id : option string) : handler (list document) :=
  fun st =>
    match post_id with
    | Some p => list_comments p st
    | None => (Raise MissingRequiredParameter, st)
    end.

End Handlers.

(** ** Diagnostics *)

(** What a call or an attribute access of the diagnostics comes to: a value,
    or an exception with its text [str(e)]. *)
Inductive outcome (A : Type) : Type :=
| Returned (a : A)
| Raised (msg : string).
Arguments Returned {A} a.
Arguments Raised {A} msg.

(** The handle [db] as [test_database] uses it: the attribute [name]
    ([None] when [hasattr] says there is none) and the outcome of
    [list_collection_names()]. *)
Record db_handle : Type := {
  db_name : option (outcome json);
  list_collection_names : outcome (list json)
}.

Definition initial_response : dict :=
  [ ("backend", JStr "✅ Running");
    ("database", JStr "❌ Not Available");
    ("database_url", JNull);
    ("database_name", JNull);
    ("connection_status", JStr "Not Connected");
    ("collections", JList []) ].

(** [test_database], given the module's [db] ([None] when it is not
    initialised) and the environment ([os.getenv]). *)
Definition test_database (db : option db_handle) (getenv : string -> option string)
  : dict :=
  let response := initial_response in
  let response :=
    match db with
    | Some d =>
        let response := dict_set "database" (JStr "✅ Available") response in
        let response := dict_set "database_url" (JStr "✅ Configured") response in
        match db_name d with
        | Some (Raised msg) =>
            dict_set "database" (JStr ("❌ Error: " ++ str_prefix 50 msg)) response
        | name =>
            let response :=
              dict_set "database_name"
                (match name with
                 | Some (Returned n) => n
                 | _ => JStr "✅ Connected"
                 end) response in
            let response := dict_set "connection_status" (JStr "Connected") response in
            match list_collection_names d with
            | Returned collections =>
                let response :=
                  dict_set "collections" (JList (firstn 10 collections)) response in
                dict_set "database" (JStr "✅ Connected & Working") response
            | Raised msg =>
                dict_set "database"
                  (JStr ("⚠️  Connected but Error: " ++ str_prefix 50 msg))
                  response
            end
        end
    | None =>
        dict_set "database" (JStr "⚠️  Available but not initialized") response
    end in
  let response :=
    dict_set "database_url"
      (JStr (if truthy (getenv "DATABASE_URL") then "✅ Set" else "❌ Not Set"))
      response in
  dict_set "database_name"
    (JStr (if truthy (getenv "DATABASE_NAME") then "✅ Set" else "❌ Not Set"))
    response.

End Main.

Import Main.

(* ===================================================================== *)
(** * Running the model *)
(* ===================================================================== *)

(** Instances of the two parameters, to evaluate the handlers on concrete
    requests. The properties below are proved for every instance. *)
Module Run.

Definition digit (c : ascii) : option Z :=
  let n := Z.of_nat (nat_of_ascii c) in
  if (Z.leb 48 n && Z.leb n 57)%bool then Some (n - 48)%Z else None.

Fixpoint digits (s : string) (acc : Z) : option Z :=
  match s with
  | EmptyString => Some acc
  | String c r =>
      match digit c with
      | Some d => digits r (10 * acc + d)%Z
      | None => None
      end
  end.

(** A plain decimal literal: an optional sign and at least one digit. *)
Definition decimal (s : string) : option (bool * Z) :=
  match s with
  | EmptyString => None
  | String "-"%char (String _ _ as r) => option_map (pair true) (digits r 0)
  | String "+"%char (String _ _ as r) => option_map (pair false) (digits r 0)
  | String _ _ => option_map (pair false) (digits s 0)
  end.

(** Reads plain decimal integer literals and rejects every other string
    (the interpreter accepts more: blanks, underscores, fractions,
    exponents). *)
Definition decimal_parse : StrParse := {|
  float_of_str s :=
    match decimal s with
    | Some (sign, Z0) => Some (S754_zero sign)
    | Some (sign, m) => Some (binary_normalize prec emax (if sign then Z.opp m else m) 0 false)
    | None => None
    end;
  int_of_str s :=
    match decimal s with
    | Some (sign, m) => Some (if sign then Z.opp m else m)
    | None => None
    end
|}.

Definition has_prefix (p s : string) : bool := String.prefix p s.

(** Accepts a value of the field's own type, and an int for a float field;
    an absolute http(s) URL is any string with that scheme, and no datetime
    is accepted (the library accepts more, numeric strings among them). *)
Definition json_conv : Conv := {|
  conv_str v := match v with JStr s => Some s | _ => None end;
  conv_int v := match v with JInt z => Some z | _ => None end;
  conv_float v := match v with
                  | JFloat f => Some f
                  | JInt z => float_of_int z
                  | _ => None
                  end;
  conv_bool v := match v with JBool b => Some b | _ => None end;
  conv_dict v := match v with JObj o => Some o | _ => None end;
  conv_url v := match v with
                | JStr s => guard (has_prefix "http://" s || has_prefix "https://" s) v
                | _ => None
                end;
  conv_datetime _ := None
|}.

(** The store of a fresh deployment, a store that cannot be reached, and
    the store after the same request has been served [n] times. *)
Definition empty_store : store :=
  {| reachable := true; next_id := 0; records := [] |}.

Definition down_store : store :=
  {| reachable := false; next_id := 0; records := [] |}.

Fixpoint repeated {A : Type} (n : nat) (h : Main.handler A) (st : store) : store :=
  match n with
  | O => st
  | S k => repeated k h (snd (h st))
  end.

(** An order of two lines, 10 x 2 and 5 x 1, sent with a total and a status
    of the client's own. *)
Definition order_body : dict :=
  [ ("buyer_name", JStr "Ada");
    ("buyer_email", JStr "ada@example.org");
    ("shipping_address", JStr "1 Main Street");
    ("total_amount", JInt 999);
    ("status", JStr "paid");
    ("items", JList
       [ JObj [("supply_id", JStr "s1"); ("title", JStr "Brush");
               ("price", JInt 10); ("quantity", JInt 2)];
         JObj [("supply_id", JStr "s2"); ("title", JStr "Canvas");
               ("price", JInt 5); ("quantity", JInt 1)] ]) ].

(** What [OrderInput] makes of that body, and the document [create_order]
    builds from it: the total is 25.0, the status "pending". *)
Definition order_input : OrderInput :=
  {| buyer_name := "Ada";
     buyer_email := "ada@example.org";
     shipping_address := "1 Main Street";
     items := [ [("supply_id", JStr "s1"); ("title", JStr "Brush");
                 ("price", JInt 10); ("quantity", JInt 2)];
                [("supply_id", JStr "s2"); ("title", JStr "Canvas");
                 ("price", JInt 5); ("quantity", JInt 1)] ] |}.

Definition order_document : dict :=
  [ ("buyer_name", JStr "Ada");
    ("buyer_email", JStr "ada@example.org");
    ("shipping_address", JStr "1 Main Street");
    ("items", JList
       [ JObj [("supply_id", JStr "s1"); ("title", JStr "Brush");
               ("price", JFloat (S754_finite false 5629499534213120 (-49)));
               ("quantity", JInt 2)];
         JObj [("supply_id", JStr "s2"); ("title", JStr "Canvas");
               ("price", JFloat (S754_finite false 5629499534213120 (-50)));
               ("quantity", JInt 1)] ]);
    ("total_amount", JFloat (S754_finite false 7036874417766400 (-48)));
    ("status", JStr "pending") ].

(** An order of two lines, -5 x 1 and 10 x 1. *)
Definition refund_order : OrderInput :=
  {| buyer_name := "Ada";
     buyer_email := "ada@example.org";
     shipping_address := "1 Main Street";
     items := [ [("supply_id", JStr "s1"); ("title", JStr "Voucher");
                 ("price", JInt (-5)); ("quantity", JInt 1)];
                [("supply_id", JStr "s2"); ("title", JStr "Canvas");
                 ("price", JInt 10); ("quantity", JInt 1)] ] |}.

(** An order whose only line has the given price and quantity. *)
Definition one_line_order (price quantity : json) : OrderInput :=
  {| buyer_name := "Ada";
     buyer_email := "ada@example.org";
     shipping_address := "1 Main Street";
     items := [ [("supply_id", JStr "s1"); ("title", JStr "Brush");
                 ("price", price); ("quantity", quantity)] ] |}.

(** Request bodies: an artwork with one tag, a user, a supply with the
    given price and stock, a comment on a post. *)
Definition tagged (tag : string) : json :=
  JObj [("artist_id", JStr "u1"); ("title", JStr "Untitled");
        ("tags", JList [JStr tag])].

Definition a_user : json :=
  JObj [("name", JStr "Ada"); ("email", JStr "ada@example.org")].

Definition a_supply (price stock : json) : dict :=
  [("title", JStr "Ink"); ("price", price); ("category", JStr "Paints");
   ("stock", stock)].

Definition a_comment (post_id : string) : json :=
  JObj [("post_id", JStr post_id); ("author_id", JStr "u1"); ("text", JStr "Nice")].

(** Stores reached by serving requests from a fresh deployment. *)
Definition artworks (n : nat) (tag : string) (st : store) : store :=
  repeated n (@POST_artworks json_conv (tagged tag)) st.

Definition users (n : nat) : store :=
  repeated n (@POST_users json_conv a_user) empty_store.

Definition comments (n : nat) (post_id : string) (st : store) : store :=
  repeated n (@POST_comments json_conv (a_comment post_id)) st.

(** A supply of a category, and the store after [n] such supplies. *)
Definition supply_of (category : string) : json :=
  JObj [("title", JStr "Ink"); ("price", JInt 5); ("category", JStr category)].

Definition supplies (n : nat) (category : string) (st : store) : store :=
  repeated n (@POST_supplies json_conv (supply_of category)) st.

(** A user as sent, with a key the model does not declare. *)
Definition user_body : dict :=
  [("name", JStr "Ada"); ("email", JStr "ada@example.org")].

Definition user_body_with_id : dict :=
  ("_id", JStr "42") :: user_body.

(** An order without items, and the bodies of an artwork, of a purchase
    request and of a post with their required fields only. *)
Definition empty_order : OrderInput :=
  {| buyer_name := "Ada";
     buyer_email := "ada@example.org";
     shipping_address := "1 Main Street";
     items := [] |}.

Definition artwork_body : dict :=
  [("artist_id", JStr "u1"); ("title", JStr "Untitled")].

Definition request_body : dict :=
  [("artwork_id", JStr "a1"); ("buyer_name", JStr "Ada");
   ("buyer_email", JStr "ada@example.org")].

Definition post_body : dict :=
  [("author_id", JStr "u1"); ("text", JStr "Hello")].

(** The store after [n] orders, and a text of [n] check marks (three
    bytes each). *)
Definition orders (n : nat) : store :=
  repeated n (@POST_orders decimal_parse json_conv (JObj order_body)) empty_store.

Definition checks (n : nat) : string := String.concat "" (repeat "✅" n).

(** A database handle whose listing of collections fails, one that lists
    twelve collections, and an environment with the database URL set and
    the database name set to the empty string. *)
Definition failing_db : db_handle :=
  {| db_name := Some (Returned (JStr "artlink"));
     list_collection_names := Raised "connection refused" |}.

Definition twelve : list json :=
  map JStr ["a"; "b"; "c"; "d"; "e"; "f"; "g"; "h"; "i"; "j"; "k"; "l"].

Definition working_db : db_handle :=
  {| db_name := Some (Returned (JStr "artlink"));
     list_collection_names := Returned twelve |}.

Definition an_env (name : string) : option string :=
  if String.eqb name "DATABASE_URL" then Some "mongodb://localhost"
  else if String.eqb name "DATABASE_NAME" then Some ""
  else None.

End Run.

(* ===================================================================== *)
(** * The specification's vocabulary *)
(* ===================================================================== *)

Module Spec.

Section Orders.
Context {SP : StrParse}.

(** The price of a raw item coerced to a float, 0 when the item has no
    price; the quantity coerced to an int, 1 when the item has none. *)
Definition spec_price (item : dict) : result float :=
  match lookup "price" item with
  | Some v => py_float v
  | None => Ok fzero
  end.

Definition spec_quantity (item : dict) : result Z :=
  match lookup "quantity" item with
  | Some v => py_int v
  | None => Ok 1%Z
  end.

(** price x quantity of one item. *)
Definition spec_line (item : dict) : result float :=
  p <- spec_price item ;;
  q <- spec_quantity item ;;
  fmul_int p q.

End Orders.

(** The sum of a list of floats, added from the left starting at [0.0]. *)
Definition fsum (l : list float) : float := fold_left fadd l fzero.

(** The float [1.0] and the float [3.0]. *)
Definition fone : float := S754_finite false 4503599627370496 (-52).
Definition fthree : float := S754_finite false 6755399441055744 (-51).

(** The keys of a request body that [OrderInput] reads. *)
Definition OrderInput_keys : list string :=
  ["buyer_name"; "buyer_email"; "shipping_address"; "items"].

(** Two bodies that agree on the keys of [OrderInput] (they may differ on any
    other key: [total_amount], [status], ...). *)
Definition same_order_fields (o o' : dict) : Prop :=
  forall k, In k OrderInput_keys -> lookup k o' = lookup k o.

(** Some required field of the schema is absent from the input. *)
Definition missing_required (s : schema) (o : dict) : bool :=
  existsb (fun f => is_required f
                    && match lookup (fname f) o with
                       | None => true
                       | Some _ => false
                       end) s.

(** Some enumerated field of the schema is given a value outside its set. *)
Definition in_literal (choices : list string) (v : json) : bool :=
  match v with
  | JStr c => existsb (String.eqb c) choices
  | _ => false
  end.

Definition outside_enum (s : schema) (o : dict) : bool :=
  existsb (fun f => match ftyp f, lookup (fname f) o with
                    | TLiteral choices, Some v => negb (in_literal choices v)
                    | _, _ => false
                    end) s.

(** The record's [tags] list contains the tag. *)
Definition has_tag (tag : string) (d : document) : bool :=
  match lookup "tags" (doc_data d) with
  | Some (JList l) => existsb (is_str tag) l
  | _ => false
  end.

(** The record's field is the given string. *)
Definition field_is (key value : string) (d : document) : bool :=
  match lookup key (doc_data d) with
  | Some v => is_str value v
  | None => false
  end.

(** The result of listing with the tag is, as a set, the set of stored
    records of the collection whose tags contain the tag. *)
Definition tag_filter_exact (list : option string -> Main.handler (list document))
    (name : string) (st : store) (tag : string) : Prop :=
  exists l,
    fst (list (Some tag) st) = Ok l
    /\ forall d, In d l <-> (In d (collection name st) /\ has_tag tag d = true).

(** Two inputs that agree on every field a schema declares (they may
    differ on any other key). *)
Definition agree_on (s : schema) (o o' : dict) : Prop :=
  forall f, In f s -> lookup (fname f) o' = lookup (fname f) o.

(** The keys of a dict, in order. *)
Definition keys (d : dict) : list string := map fst d.

(** When the input has no such key, the document has the given value
    under it. *)
Definition defaulted (o doc : dict) (key : string) (d : json) : Prop :=
  lookup key o = None -> lookup key doc = Some d.

(** The document has, under the key, a string of the given set. *)
Definition one_of (doc : dict) (key : string) (choices : list string) : Prop :=
  exists c, lookup key doc = Some (JStr c) /\ In c choices.

(** The document of an order with the given validated items and total,
    as [create_order] hands it to the store. *)
Definition order_record (order : OrderInput) (its : list json) (total : float) : dict :=
  [ ("buyer_name", JStr (buyer_name order));
    ("buyer_email", JStr (buyer_email order));
    ("shipping_address", JStr (shipping_address order));
    ("items", JList its);
    ("total_amount", JFloat total);
    ("status", JStr "pending") ].

(** A raw item as it is stored in an order: the four fields of [OrderItem],
    a float price, an int quantity that is at least 1, and 1 when the raw
    item has none. *)
Definition stored_item (item : dict) (it : json) : Prop :=
  exists d x z,
    it = JObj d
    /\ keys d = ["supply_id"; "title"; "price"; "quantity"]
    /\ lookup "price" d = Some (JFloat x)
    /\ lookup "quantity" d = Some (JInt z)
    /\ (1 <= z)%Z
    /\ defaulted item d "quantity" (JInt 1).

(** How the diagnostics report an environment variable. *)
Definition env_flag (value : option string) : json :=
  JStr (if truthy value then "✅ Set" else "❌ Not Set").

(** The handle answers [hasattr(db, 'name')] and [db.name] without raising. *)
Definition name_readable (d : db_handle) : Prop :=
  forall msg, db_name d <> Some (Raised msg).

(** The records an optional tag selects: those whose tags contain it, and
    every record when it is absent or the empty string. Likewise for an
    optional category. *)
Definition tag_selects (tag : option string) (d : document) : bool :=
  match tag with
  | Some t => if String.eqb t "" then true else has_tag t d
  | None => true
  end.

Definition category_selects (category : option string) (d : document) : bool :=
  match category with
  | Some c => if String.eqb c "" then true else field_is "category" c d
  | None => true
  end.

(** The list operation answers with the first [n] of the given records,
    leaving the store as it is: all of them when there are at most [n],
    exactly [n] when there are more. *)
Definition lists_first (n : nat) (matching : list document)
    (list : Main.handler (list document)) (st : store) : Prop :=
  exists l,
    list st = (Ok l, st)
    /\ l = firstn n matching
    /\ List.length l = Nat.min n (List.length matching).

(** No string occurs twice. *)
Fixpoint nodupb (l : list string) : bool :=
  match l with
  | [] => true
  | x :: l' => negb (existsb (String.eqb x) l') && nodupb l'
  end.

End Spec.

Import Spec.

(* ===================================================================== *)
(** * Properties *)
(* ===================================================================== *)

(** ** Validation *)

(** Membership of a field in a schema that is written out. *)
Ltac in_schema := simpl; repeat (first [left; reflexivity | right]).

Section ValidationFacts.
Context {C : Conv}.

(** A nested model is validated field by field. *)
Lemma validate_TModel (s : schema) (v : json) :
  validate (TModel s) v =
  match conv_dict v with
  | Some input => option_map JObj (validate_fields s input)
  | None => None
  end.
Proof.
  simpl. destruct (conv_dict v) as [input|]; [|reflexivity].
  f_equal.
  induction s as [|[[n t] d] s IH]; [reflexivity|].
  rewrite IH. unfold validate_fields at 2. fold validate_fields.
  unfold validate_field, fname, ftyp, fdefault; simpl.
  reflexivity.
Qed.

Lemma validate_model_fields (s : schema) (v : json) :
  validate_model s v =
  match conv_dict v with
  | Some input => validate_fields s input
  | None => None
  end.
Proof.
  unfold validate_model. rewrite validate_TModel.
  destruct (conv_dict v) as [input|]; [|reflexivity].
  destruct (validate_fields s input); reflexivity.
Qed.

(** One invalid field makes the model invalid. *)
Lemma validate_fields_invalid (s : schema) (input : dict) (f : field) :
  In f s -> validate_field f input = None -> validate_fields s input = None.
Proof.
  induction s as [|g s IH]; simpl; [tauto|].
  intros [->|Hin] Hf.
  - rewrite Hf. reflexivity.
  - destruct (validate_field g input); [|reflexivity].
    rewrite (IH Hin Hf). reflexivity.
Qed.

(** A valid model holds, under each field name, the validated field. *)
Lemma validate_fields_lookup (s : schema) (input doc : dict) (f : field) :
  NoDup (map fname s) ->
  validate_fields s input = Some doc ->
  In f s ->
  lookup (fname f) doc = validate_field f input.
Proof.
  revert doc. induction s as [|g s IH]; simpl; [tauto|].
  intros doc Hnd Hv Hin. inversion Hnd as [|x l Hx Hl]; subst.
  destruct (validate_field g input) as [y|] eqn:Hg; [|discriminate].
  destruct (validate_fields s input) as [doc'|] eqn:Hs; [|discriminate].
  simpl in Hv. inversion Hv; subst doc. simpl.
  destruct Hin as [->|Hin].
  - rewrite String.eqb_refl. symmetry. exact Hg.
  - destruct (String.eqb (fname g) (fname f)) eqn:E.
    + apply String.eqb_eq in E. exfalso. apply Hx. rewrite E.
      apply in_map. exact Hin.
    + apply IH; auto.
Qed.

Lemma missing_required_invalid (s : schema) (o : dict) :
  missing_required s o = true -> validate_fields s o = None.
Proof.
  unfold missing_required. rewrite existsb_exists. intros [f [Hin Hf]].
  apply andb_true_iff in Hf. destruct Hf as [Hreq Hnone].
  apply (validate_fields_invalid _ _ f Hin).
  unfold validate_field, is_required in *.
  destruct (lookup (fname f) o); [discriminate|].
  destruct (fdefault f); [reflexivity|discriminate].
Qed.

Lemma outside_enum_invalid (s : schema) (o : dict) :
  outside_enum s o = true -> validate_fields s o = None.
Proof.
  unfold outside_enum. rewrite existsb_exists. intros [f [Hin Hf]].
  apply (validate_fields_invalid _ _ f Hin).
  unfold validate_field.
  destruct (ftyp f) as [| | | | | | |choices| | |]; try discriminate.
  destruct (lookup (fname f) o) as [v|]; [|discriminate].
  apply negb_true_iff in Hf. unfold in_literal in Hf. simpl.
  destruct v; try reflexivity. rewrite Hf. reflexivity.
Qed.

End ValidationFacts.

(** ** The order total *)

Section OrderTotal.
Context {SP : StrParse}.

(** The defaulting of [dict.get] in the loop is the defaulting of the
    specification. *)
Lemma price_coerced (item : dict) :
  py_float (dict_get item "price" (JInt 0)) = spec_price item.
Proof.
  unfold dict_get, spec_price. destruct (lookup "price" item); reflexivity.
Qed.

Lemma quantity_coerced (item : dict) :
  py_int (dict_get item "quantity" (JInt 1)) = spec_quantity item.
Proof.
  unfold dict_get, spec_quantity. destruct (lookup "quantity" item); reflexivity.
Qed.

Lemma order_total_step (item : dict) (rest : list dict) (total : float) :
  order_total (item :: rest) total =
  (line <- spec_line item ;; order_total rest (fadd total line)).
Proof.
  simpl. rewrite price_coerced, quantity_coerced. unfold spec_line.
  destruct (spec_price item) as [p|e]; simpl; [|reflexivity].
  destruct (spec_quantity item) as [q|e]; simpl; reflexivity.
Qed.

(** The loop returns exactly when every line can be computed, and then it
    returns the lines added from the left onto the accumulator. *)
Lemma order_total_sound (its : list dict) (acc total : float) :
  order_total its acc = Ok total ->
  exists lines,
    Forall2 (fun item x => spec_line item = Ok x) its lines
    /\ total = fold_left fadd lines acc.
Proof.
  revert acc. induction its as [|item rest IH]; intros acc H.
  - simpl in H. inversion H. exists []. split; [constructor|reflexivity].
  - rewrite order_total_step in H.
    destruct (spec_line item) as [x|e] eqn:Hx; simpl in H; [|discriminate].
    destruct (IH _ H) as [lines [Hl Ht]].
    exists (x :: lines). split; [constructor; assumption|exact Ht].
Qed.

Lemma order_total_complete (its : list dict) (lines : list float) (acc : float) :
  Forall2 (fun item x => spec_line item = Ok x) its lines ->
  order_total its acc = Ok (fold_left fadd lines acc).
Proof.
  intros H. revert acc. induction H as [|item x rest lines Hx _ IH]; intros acc.
  - reflexivity.
  - rewrite order_total_step, Hx. simpl. apply IH.
Qed.

(** C8. In the order total computation an item with a price and no
    quantity field counts with quantity 1: its line is price x 1.0, and the
    item [{price: 3}] adds 3.0 to the total. *)
Theorem missing_quantity_defaults_to_one
    (item : dict) (rest : list dict) (total : float) :
  lookup "quantity" item = None ->
  spec_quantity item = Ok 1%Z
  /\ order_total (item :: rest) total =
       (price <- py_float (dict_get item "price" (JInt 0)) ;;
        order_total rest (fadd total (fmul price fone)))
  /\ (lookup "price" item = Some (JInt 3) ->
       order_total [item] fzero = Ok fthree).
Proof.
  intros Hq. split; [|split].
  - unfold spec_quantity. rewrite Hq. reflexivity.
  - simpl. unfold dict_get at 2. rewrite Hq. simpl.
    destruct (py_float (dict_get item "price" (JInt 0))); reflexivity.
  - intros Hp. simpl. unfold dict_get. rewrite Hp, Hq.
    vm_compute. reflexivity.
Qed.

End OrderTotal.

Lemma missing_quantity_defaults_to_one_witness :
  lookup "quantity" [("price", JInt 3)] = None
  /\ @order_total Run.decimal_parse [[("price", JInt 3)]] fzero = Ok fthree.
Proof.
  split; [reflexivity|].
  apply (@missing_quantity_defaults_to_one Run.decimal_parse
           [("price", JInt 3)] [] fzero); reflexivity.
Defined.

(** ** Building and storing an order *)

Section Orders.
Context {SP : StrParse} {C : Conv} {CE : ConvExact C}.

Lemma Order_names : NoDup (map fname Schemas.Order).
Proof.
  repeat constructor; simpl; intuition discriminate.
Qed.

(** The keyword arguments of [Order(...)] in [create_order]. *)
Lemma order_doc_fields (order : OrderInput) (doc : dict) :
  order_doc order = Ok doc ->
  exists total,
    order_total (items order) fzero = Ok total
    /\ fle fzero total = true
    /\ lookup "total_amount" doc = Some (JFloat total)
    /\ lookup "status" doc = Some (JStr "pending")
    /\ exists its, lookup "items" doc = Some (JList its)
         /\ all_valid (validate (TModel Schemas.OrderItem)) (map JObj (items order))
            = Some its.
Proof.
  unfold order_doc. intros H.
  destruct (order_total (items order) fzero) as [total|e]; cbn [bind] in H;
    [|discriminate].
  match type of H with
  | match validate_fields _ ?kw with _ => _ end = _ =>
      set (kwargs := kw) in *; destruct (validate_fields Schemas.Order kwargs) as [d|] eqn:Hv
  end; [|discriminate].
  inversion H; subst d. clear H.
  exists total. split; [reflexivity|].
  pose proof (validate_fields_lookup _ _ _ ("total_amount", TFloat (Some Schemas.zero), Required)
                Order_names Hv ltac:(in_schema)) as Ht.
  pose proof (validate_fields_lookup _ _ _
                ("status", TLiteral ["pending"; "paid"; "shipped"; "delivered"; "cancelled"],
                 Default (JStr "pending")) Order_names Hv ltac:(in_schema)) as Hs.
  pose proof (validate_fields_lookup _ _ _ ("items", TList (TModel Schemas.OrderItem), Required)
                Order_names Hv ltac:(in_schema)) as Hi.
  assert (Hin : forall f, In f Schemas.Order ->
                          validate_field f kwargs <> None).
  { intros f Hf Hnone. rewrite (validate_fields_invalid _ _ _ Hf Hnone) in Hv. discriminate. }
  cbn [fname fst snd] in Ht, Hs, Hi.
  assert (Ht' : validate_field ("total_amount", TFloat (Some Schemas.zero), Required) kwargs
                = guard (fle fzero total) (JFloat total)).
  { unfold validate_field. cbn. rewrite conv_float_exact. reflexivity. }
  assert (Hs' : validate_field
                  ("status", TLiteral ["pending"; "paid"; "shipped"; "delivered"; "cancelled"],
                   Default (JStr "pending")) kwargs = Some (JStr "pending")).
  { reflexivity. }
  assert (Hi' : validate_field ("items", TList (TModel Schemas.OrderItem), Required) kwargs
                = option_map JList
                    (all_valid (validate (TModel Schemas.OrderItem)) (map JObj (items order)))).
  { reflexivity. }
  assert (Hge : fle fzero total = true).
  { destruct (fle fzero total) eqn:E; [reflexivity|].
    exfalso. apply (Hin ("total_amount", TFloat (Some Schemas.zero), Required)).
    - in_schema.
    - rewrite Ht'. reflexivity. }
  split; [exact Hge|].
  split; [rewrite Ht, Ht', Hge; reflexivity|].
  split; [rewrite Hs, Hs'; reflexivity|].
  rewrite Hi, Hi'.
  destruct (all_valid (validate (TModel Schemas.OrderItem)) (map JObj (items order)))
    as [its|] eqn:Ha.
  - exists its. split; reflexivity.
  - exfalso. apply (Hin ("items", TList (TModel Schemas.OrderItem), Required)).
    + in_schema.
    + rewrite Hi'. reflexivity.
Qed.

Lemma all_valid_invalid {A B : Type} (f : A -> option B) (l : list A) (x : A) :
  In x l -> f x = None -> all_valid f l = None.
Proof.
  induction l as [|y l IH]; simpl; [tauto|].
  intros [->|Hin] Hx.
  - rewrite Hx. reflexivity.
  - destruct (f y); [|reflexivity]. rewrite (IH Hin Hx). reflexivity.
Qed.

Lemma flt_zero_not_ge (x : float) : flt x fzero = true -> fle fzero x = false.
Proof.
  destruct x as [s|s| |s m e]; try destruct s; simpl; intros H;
    try discriminate; reflexivity.
Qed.

(** What [OrderInput] makes of a body depends on its four keys only. *)
Lemma validate_OrderInput_keys (o o' : dict) :
  same_order_fields o o' ->
  validate_OrderInput (JObj o') = validate_OrderInput (JObj o).
Proof.
  intros H. unfold validate_OrderInput. rewrite !conv_dict_exact.
  rewrite (H "buyer_name"), (H "buyer_email"), (H "shipping_address"), (H "items");
    try reflexivity; unfold OrderInput_keys; in_schema.
Qed.

(** [create_order] does build the order when every line can be computed,
    the sum is not negative and every item is a valid [OrderItem]. *)
Lemma order_doc_complete (order : OrderInput) (lines : list float) (its : list json) :
  Forall2 (fun item x => spec_line item = Ok x) (items order) lines ->
  fle fzero (fsum lines) = true ->
  all_valid (validate (TModel Schemas.OrderItem)) (map JObj (items order)) = Some its ->
  order_doc order
  = Ok [ ("buyer_name", JStr (buyer_name order));
         ("buyer_email", JStr (buyer_email order));
         ("shipping_address", JStr (shipping_address order));
         ("items", JList its);
         ("total_amount", JFloat (fsum lines));
         ("status", JStr "pending") ].
Proof.
  intros Hl Hge Hits. unfold order_doc.
  rewrite (order_total_complete _ _ _ Hl). cbn [bind].
  fold (fsum lines).
  unfold Schemas.Order, validate_fields, validate_field.
  cbn [fname ftyp fdefault fst snd lookup String.eqb Ascii.eqb Bool.eqb].
  change (validate TStr) with (fun v => option_map JStr (conv_str v)).
  cbv beta. rewrite !conv_str_exact. cbn [option_map].
  change (validate (TList (TModel Schemas.OrderItem)) (JList (map JObj (items order))))
    with (option_map JList
            (all_valid (validate (TModel Schemas.OrderItem)) (map JObj (items order)))).
  rewrite Hits. cbn [option_map].
  change (validate (TFloat (Some Schemas.zero)) (JFloat (fsum lines)))
    with (match conv_float (JFloat (fsum lines)) with
          | Some x => guard (ge_float (Some Schemas.zero) x) (JFloat x)
          | None => None
          end).
  rewrite conv_float_exact. unfold ge_float, Schemas.zero. rewrite Hge.
  reflexivity.
Qed.

(** C1. For every order-creation input, the order document that
    [create_order] builds and hands to the store has [total_amount] equal to
    the sum over the raw items of price x quantity (price coerced to a float,
    0 when the item has no price; quantity coerced to an int, 1 when it has
    no quantity) and has status "pending"; the same document is handed over
    for every body that agrees on the four keys of [OrderInput], whatever
    total or status the client sends along. *)
Theorem order_total_is_sum_of_lines (o : dict) (order : OrderInput) (doc : dict) :
  validate_OrderInput (JObj o) = Some order ->
  order_doc order = Ok doc ->
  (exists lines,
      Forall2 (fun item x => spec_line item = Ok x) (items order) lines
      /\ lookup "total_amount" doc = Some (JFloat (fsum lines))
      /\ lookup "status" doc = Some (JStr "pending"))
  /\ (forall o' st, same_order_fields o o' ->
                    POST_orders (JObj o') st = create_document "order" doc st).
Proof.
  intros Ho Hd. split.
  - destruct (order_doc_fields _ _ Hd) as [total [Ht [_ [Hta [Hs _]]]]].
    destruct (order_total_sound _ _ _ Ht) as [lines [Hl Hsum]].
    exists lines. subst total. repeat split; assumption.
  - intros o' st Hsame. unfold POST_orders.
    rewrite (validate_OrderInput_keys _ _ Hsame), Ho.
    unfold create_order. rewrite Hd. reflexivity.
Qed.

(** C2. The raw items are validated against [OrderItem] after the total
    has been computed from them and before anything is written: an error of
    the total computation is what the caller gets; once the total is
    computed, an item that [OrderItem] rejects makes the construction of the
    order fail; either way the store is unchanged. An item with quantity 0,
    or without one of [supply_id], [title], [price], is rejected. *)
Theorem order_items_validated_after_total (order : OrderInput) (st : store) :
  (forall e, order_total (items order) fzero = Raise e ->
             create_order order st = (Raise e, st))
  /\ (forall item total,
        In item (items order) ->
        validate (TModel Schemas.OrderItem) (JObj item) = None ->
        order_total (items order) fzero = Ok total ->
        create_order order st = (Raise ValidationError, st))
  /\ (forall item,
        In item (items order) ->
        validate (TModel Schemas.OrderItem) (JObj item) = None ->
        exists e, create_order order st = (Raise e, st))
  /\ (forall item,
        lookup "quantity" item = Some (JInt 0) ->
        validate (TModel Schemas.OrderItem) (JObj item) = None)
  /\ (forall item,
        missing_required Schemas.OrderItem item = true ->
        validate (TModel Schemas.OrderItem) (JObj item) = None).
Proof.
  assert (Hfail : forall item total,
             In item (items order) ->
             validate (TModel Schemas.OrderItem) (JObj item) = None ->
             order_total (items order) fzero = Ok total ->
             create_order order st = (Raise ValidationError, st)).
  { intros item total Hin Hbad Ht.
    unfold create_order, order_doc. rewrite Ht. cbn [bind].
    rewrite (validate_fields_invalid _ _
               ("items", TList (TModel Schemas.OrderItem), Required)).
    - reflexivity.
    - in_schema.
    - unfold validate_field. cbn [fname ftyp fst snd].
      change (lookup "items" _) with (Some (JList (map JObj (items order)))).
      cbn [validate].
      rewrite (all_valid_invalid _ _ (JObj item)); [reflexivity| |exact Hbad].
      apply in_map. exact Hin. }
  split; [|split; [exact Hfail|split; [|split]]].
  - intros e He. unfold create_order, order_doc. rewrite He. reflexivity.
  - intros item Hin Hbad.
    destruct (order_total (items order) fzero) as [total|e] eqn:Ht.
    + exists ValidationError. exact (Hfail item total Hin Hbad eq_refl).
    + exists e. unfold create_order, order_doc. rewrite Ht. reflexivity.
  - intros item Hq. rewrite validate_TModel, conv_dict_exact.
    rewrite (validate_fields_invalid _ _ ("quantity", TInt (Some 1%Z), Default (JInt 1))).
    + reflexivity.
    + in_schema.
    + unfold validate_field. cbn [fname ftyp fst snd]. rewrite Hq.
      cbn [validate]. rewrite conv_int_exact. reflexivity.
  - intros item Hm. rewrite validate_TModel, conv_dict_exact.
    rewrite (missing_required_invalid _ _ Hm). reflexivity.
Qed.

(** C10. Item prices may be negative, the total of an [Order] may not:
    when the computed total is negative, building the order fails
    validation and nothing is written to the store. *)
Theorem negative_total_not_persisted
    (order : OrderInput) (total : float) (st : store) :
  order_total (items order) fzero = Ok total ->
  flt total fzero = true ->
  order_doc order = Raise ValidationError
  /\ create_order order st = (Raise ValidationError, st).
Proof.
  intros Ht Hneg.
  assert (Hd : order_doc order = Raise ValidationError).
  { unfold order_doc. rewrite Ht. cbn [bind].
    rewrite (validate_fields_invalid _ _
               ("total_amount", TFloat (Some Schemas.zero), Required)).
    - reflexivity.
    - in_schema.
    - unfold validate_field. cbn [fname ftyp fst snd].
      change (lookup "total_amount" _) with (Some (JFloat total)).
      cbn [validate]. rewrite conv_float_exact.
      unfold ge_float, Schemas.zero. rewrite (flt_zero_not_ge _ Hneg).
      reflexivity. }
  split; [exact Hd|].
  unfold create_order. rewrite Hd. reflexivity.
Qed.

End Orders.

Lemma json_conv_exact : ConvExact Run.json_conv.
Proof. constructor; reflexivity. Qed.

Lemma order_total_is_sum_of_lines_witness :
  @validate_OrderInput Run.json_conv (JObj Run.order_body) = Some Run.order_input
  /\ @order_doc Run.decimal_parse Run.json_conv Run.order_input
     = Ok Run.order_document
  /\ forall o' st, same_order_fields Run.order_body o' ->
       @POST_orders Run.decimal_parse Run.json_conv (JObj o') st
       = create_document "order" Run.order_document st.
Proof.
  assert (Ho : @validate_OrderInput Run.json_conv (JObj Run.order_body)
               = Some Run.order_input) by reflexivity.
  assert (Hd : @order_doc Run.decimal_parse Run.json_conv Run.order_input
               = Ok Run.order_document) by (vm_compute; reflexivity).
  split; [exact Ho|]. split; [exact Hd|].
  exact (proj2 (@order_total_is_sum_of_lines Run.decimal_parse Run.json_conv
                  json_conv_exact Run.order_body Run.order_input
                  Run.order_document Ho Hd)).
Defined.

(** The order of the specification's example: 10 x 2 + 5 x 1 is stored as
    25.0 with status "pending", whatever total and status the client sent. *)
Example order_of_25 :
  @POST_orders Run.decimal_parse Run.json_conv (JObj Run.order_body) Run.empty_store
  = (Ok 0,
     {| reachable := true;
        next_id := 1;
        records := [("order", {| doc_id := 0; doc_data := Run.order_document |})] |})
  /\ float_of_int 25 = Some (S754_finite false 7036874417766400 (-48)).
Proof. split; vm_compute; reflexivity. Qed.

Lemma order_items_validated_after_total_witness :
  exists e,
    @create_order Run.decimal_parse Run.json_conv
      (Run.one_line_order (JInt 10) (JInt 0)) Run.empty_store
    = (Raise e, Run.empty_store).
Proof.
  pose proof (@order_items_validated_after_total Run.decimal_parse Run.json_conv
                json_conv_exact (Run.one_line_order (JInt 10) (JInt 0))
                Run.empty_store) as [_ [_ [H [Hq _]]]].
  apply (H [("supply_id", JStr "s1"); ("title", JStr "Brush");
            ("price", JInt 10); ("quantity", JInt 0)]).
  - simpl. left. reflexivity.
  - apply Hq. reflexivity.
Defined.

Lemma negative_total_not_persisted_witness :
  @create_order Run.decimal_parse Run.json_conv
    (Run.one_line_order (JInt (-5)) (JInt 1)) Run.empty_store
  = (Raise ValidationError, Run.empty_store).
Proof.
  apply (@negative_total_not_persisted Run.decimal_parse Run.json_conv
           json_conv_exact (Run.one_line_order (JInt (-5)) (JInt 1))
           (S754_finite true 5629499534213120 (-50)) Run.empty_store).
  - vm_compute. reflexivity.
  - reflexivity.
Defined.

(** A negative price alone is no obstacle: an order of -5 x 1 and 10 x 1
    has total 5.0 and is stored. *)
Example negative_price_positive_total :
  exists st',
    @create_order Run.decimal_parse Run.json_conv Run.refund_order Run.empty_store
    = (Ok 0, st')
    /\ exists doc,
         records st' = [("order", {| doc_id := 0; doc_data := doc |})]
         /\ lookup "total_amount" doc
            = Some (JFloat (S754_finite false 5629499534213120 (-50))).
Proof.
  eexists. split; [vm_compute; reflexivity|].
  eexists. split; reflexivity.
Qed.

(** ** Creating records *)

Section Creation.
Context {C : Conv} {CE : ConvExact C}.

(** The request layer answers an invalid body itself: the handler is not
    called and the store is as before. *)
Lemma with_model_invalid (s : schema) (h : dict -> Main.handler nat)
    (o : dict) (st : store) :
  validate_fields s o = None ->
  with_model s h (JObj o) st = (Raise ValidationFailure, st).
Proof.
  intros H. unfold with_model.
  rewrite validate_model_fields, conv_dict_exact, H. reflexivity.
Qed.

(** C3. Creating an Artwork, a Supply, a Post or a Comment from an input
    that lacks a required field, or that gives an enumerated field a value
    outside its closed set, fails with ValidationFailure, and the store is
    left as it was. *)
Theorem create_rejects_invalid_input (o : dict) (st : store) :
  (missing_required Schemas.Artwork o || outside_enum Schemas.Artwork o = true ->
   POST_artworks (JObj o) st = (Raise ValidationFailure, st))
  /\ (missing_required Schemas.Supply o || outside_enum Schemas.Supply o = true ->
      POST_supplies (JObj o) st = (Raise ValidationFailure, st))
  /\ (missing_required Schemas.Post o || outside_enum Schemas.Post o = true ->
      POST_posts (JObj o) st = (Raise ValidationFailure, st))
  /\ (missing_required Schemas.Comment o || outside_enum Schemas.Comment o = true ->
      POST_comments (JObj o) st = (Raise ValidationFailure, st)).
Proof.
  repeat split; intros H; apply orb_true_iff in H;
    apply with_model_invalid;
    (destruct H as [H|H];
     [apply missing_required_invalid | apply outside_enum_invalid]; exact H).
Qed.

(** C7. A Supply whose price or stock is negative is rejected with
    ValidationFailure and nothing is written; a price that is >= 0 and a
    stock that is >= 0, or absent (then 0), pass the validation of their
    fields. The price and the stock are taken as the float and the int that
    the fields hold. *)
Theorem supply_price_and_stock_bounds (o : dict) (st : store) :
  (forall v x, lookup "price" o = Some v -> conv_float v = Some x ->
               flt x fzero = true ->
               POST_supplies (JObj o) st = (Raise ValidationFailure, st))
  /\ (forall v z, lookup "stock" o = Some v -> conv_int v = Some z ->
                  (z < 0)%Z ->
                  POST_supplies (JObj o) st = (Raise ValidationFailure, st))
  /\ (forall f v x, In f Schemas.Supply -> fname f = "price" ->
                    lookup "price" o = Some v -> conv_float v = Some x ->
                    fle fzero x = true ->
                    validate_field f o = Some (JFloat x))
  /\ (forall f, In f Schemas.Supply -> fname f = "stock" ->
                lookup "stock" o = None ->
                validate_field f o = Some (JInt 0))
  /\ (forall f v z, In f Schemas.Supply -> fname f = "stock" ->
                    lookup "stock" o = Some v -> conv_int v = Some z ->
                    (0 <= z)%Z ->
                    validate_field f o = Some (JInt z)).
Proof.
  split; [|split; [|split; [|split]]].
  - intros v x Hv Hx Hneg. apply with_model_invalid.
    apply (validate_fields_invalid _ _ ("price", TFloat (Some Schemas.zero), Required));
      [in_schema|].
    unfold validate_field. cbn [fname ftyp fst snd]. rewrite Hv.
    cbn [validate]. rewrite Hx. unfold ge_float, Schemas.zero.
    rewrite (flt_zero_not_ge _ Hneg). reflexivity.
  - intros v z Hv Hz Hneg. apply with_model_invalid.
    apply (validate_fields_invalid _ _ ("stock", TInt (Some 0%Z), Default (JInt 0)));
      [in_schema|].
    unfold validate_field. cbn [fname ftyp fst snd]. rewrite Hv.
    cbn [validate]. rewrite Hz. unfold ge_int.
    replace (Z.leb 0 z) with false by (symmetry; apply Z.leb_gt; exact Hneg).
    reflexivity.
  - intros f v x Hin Hname Hv Hx Hge.
    simpl in Hin. repeat (destruct Hin as [<-|Hin]; try discriminate Hname);
      [|contradiction].
    unfold validate_field. cbn [fname ftyp fst snd]. rewrite Hv.
    cbn [validate]. rewrite Hx. unfold ge_float, Schemas.zero. rewrite Hge.
    reflexivity.
  - intros f Hin Hname Hs.
    simpl in Hin. repeat (destruct Hin as [<-|Hin]; try discriminate Hname);
      [|contradiction].
    unfold validate_field. cbn [fname ftyp fdefault fst snd]. rewrite Hs.
    reflexivity.
  - intros f v z Hin Hname Hv Hz Hge.
    simpl in Hin. repeat (destruct Hin as [<-|Hin]; try discriminate Hname);
      [|contradiction].
    unfold validate_field. cbn [fname ftyp fst snd]. rewrite Hv.
    cbn [validate]. rewrite Hz. unfold ge_int.
    replace (Z.leb 0 z) with true by (symmetry; apply Z.leb_le; exact Hge).
    reflexivity.
Qed.

End Creation.

Lemma create_rejects_invalid_input_witness :
  @POST_artworks Run.json_conv
    (JObj [("artist_id", JStr "u1"); ("title", JStr "Untitled");
           ("availability_status", JStr "gone")]) Run.empty_store
  = (Raise ValidationFailure, Run.empty_store)
  /\ @POST_comments Run.json_conv
       (JObj [("post_id", JStr "p1"); ("text", JStr "Nice")]) Run.empty_store
     = (Raise ValidationFailure, Run.empty_store).
Proof.
  split.
  - apply (proj1 (@create_rejects_invalid_input Run.json_conv json_conv_exact
                    _ Run.empty_store)).
    reflexivity.
  - apply (proj2 (proj2 (proj2 (@create_rejects_invalid_input Run.json_conv
                                  json_conv_exact _ Run.empty_store)))).
    reflexivity.
Defined.

Lemma supply_price_and_stock_bounds_witness :
  @POST_supplies Run.json_conv (JObj (Run.a_supply (JInt (-5)) (JInt 2)))
    Run.empty_store
  = (Raise ValidationFailure, Run.empty_store)
  /\ @POST_supplies Run.json_conv (JObj (Run.a_supply (JInt 5) (JInt (-2))))
       Run.empty_store
     = (Raise ValidationFailure, Run.empty_store)
  /\ @validate_field Run.json_conv ("stock", TInt (Some 0%Z), Default (JInt 0))
       (Run.a_supply (JInt 5) (JInt 2)) = Some (JInt 2).
Proof.
  pose proof (@supply_price_and_stock_bounds Run.json_conv json_conv_exact) as H.
  split; [|split].
  - apply (proj1 (H _ Run.empty_store) (JInt (-5))
             (S754_finite true 5629499534213120 (-50))); reflexivity.
  - apply (proj1 (proj2 (H _ Run.empty_store)) (JInt (-2)) (-2)%Z);
      [reflexivity|reflexivity|lia].
  - apply (proj2 (proj2 (proj2 (proj2 (H (Run.a_supply (JInt 5) (JInt 2))
                                         Run.empty_store))))
             _ (JInt 2) 2%Z); [in_schema|reflexivity|reflexivity|reflexivity|lia].
Defined.

(** ** Listing records *)

Section Listing.

Lemma filter_all {A : Type} (f : A -> bool) (l : list A) :
  (forall x, f x = true) -> filter f l = l.
Proof.
  intros H. induction l as [|x l IH]; simpl; [reflexivity|].
  rewrite H, IH. reflexivity.
Qed.

Lemma firstn_subset {A : Type} (n : nat) (l : list A) (x : A) :
  In x (firstn n l) -> In x l.
Proof.
  intros H. rewrite <- (firstn_skipn n l). apply in_or_app. left. exact H.
Qed.

Lemma matches_nil (d : document) : matches [] d = true.
Proof. reflexivity. Qed.

Lemma matches_tag (tag : string) (d : document) :
  matches [("tags", InSet [tag])] d = has_tag tag d.
Proof.
  unfold matches, has_tag. simpl.
  destruct (lookup "tags" (doc_data d)) as [[| | | | |l|]|]; simpl; try reflexivity.
  rewrite orb_false_r, andb_true_r. reflexivity.
Qed.

Lemma matches_equals (key value : string) (d : document) :
  matches [(key, Equals value)] d = field_is key value d.
Proof.
  unfold matches, field_is. simpl.
  destruct (lookup key (doc_data d)); simpl; [apply andb_true_r|reflexivity].
Qed.

Lemma is_str_eq (s : string) (v : json) : is_str s v = true <-> v = JStr s.
Proof.
  destruct v; simpl; split; intros H; try discriminate.
  - apply String.eqb_eq in H. subst. reflexivity.
  - inversion H. apply String.eqb_refl.
Qed.

(** A query with a limit on a reachable store answers, with no more
    records than the limit. *)
Lemma get_documents_limit (name : string) (filt : option filter_dict)
    (n : nat) (st : store) :
  reachable st = true ->
  exists l, get_documents name filt (Some n) st = Ok l /\ List.length l <= n.
Proof.
  intros H. unfold get_documents. rewrite H.
  eexists. split; [reflexivity|]. simpl. apply firstn_le_length.
Qed.

Lemma list_artworks_tag (st : store) (tag : string) :
  tag <> "" -> reachable st = true ->
  list_artworks (Some tag) st
  = (Ok (firstn 50 (filter (has_tag tag) (collection "artwork" st))), st).
Proof.
  intros Ht Hr. unfold list_artworks, reading, get_documents, truthy.
  rewrite Hr. destruct (String.eqb tag "") eqn:E.
  - apply String.eqb_eq in E. contradiction.
  - simpl. rewrite (filter_ext _ _ (matches_tag tag)). reflexivity.
Qed.

Lemma list_posts_tag (st : store) (tag : string) :
  tag <> "" -> reachable st = true ->
  list_posts (Some tag) st
  = (Ok (firstn 50 (filter (has_tag tag) (collection "post" st))), st).
Proof.
  intros Ht Hr. unfold list_posts, reading, get_documents, truthy.
  rewrite Hr. destruct (String.eqb tag "") eqn:E.
  - apply String.eqb_eq in E. contradiction.
  - simpl. rewrite (filter_ext _ _ (matches_tag tag)). reflexivity.
Qed.

(** C4. On a reachable store every list operation answers with the
    first records, in the store's order, of those its filter selects, up to
    its own limit and no further: Artwork 50, Supply 100, Order 50, Post 50,
    Comment 100; so it never returns more than its limit, and returns
    exactly that many when more records match. Listing the Users returns
    every stored user, with no limit. *)
Theorem list_limits (st : store) (tag category : option string) (post_id : string) :
  reachable st = true ->
  lists_first 50 (filter (tag_selects tag) (collection "artwork" st))
    (list_artworks tag) st
  /\ lists_first 100 (filter (category_selects category) (collection "supply" st))
       (list_supplies category) st
  /\ lists_first 50 (collection "order" st) list_orders st
  /\ lists_first 50 (filter (tag_selects tag) (collection "post" st))
       (list_posts tag) st
  /\ lists_first 100 (filter (field_is "post_id" post_id) (collection "comment" st))
       (list_comments post_id) st
  /\ list_users st = (Ok (collection "user" st), st).
Proof.
  intros Hr.
  assert (Hfirst : forall n matching (h : Main.handler (list document)),
             h st = (Ok (firstn n matching), st) -> lists_first n matching h st).
  { intros n matching h Hh. exists (firstn n matching).
    split; [exact Hh|]. split; [reflexivity|apply length_firstn]. }
  assert (Htag : forall name tag0,
             filter (matches (match tag0 with
                              | Some t => if truthy tag0 then [("tags", InSet [t])] else []
                              | None => []
                              end)) (collection name st)
             = filter (tag_selects tag0) (collection name st)).
  { intros name tag0. apply filter_ext. intros d.
    destruct tag0 as [t|]; [|reflexivity].
    unfold truthy, tag_selects. destruct (String.eqb t ""); simpl;
      [reflexivity|apply matches_tag]. }
  assert (Hcat : filter (matches (match category with
                                  | Some c => if truthy category
                                              then [("category", Equals c)] else []
                                  | None => []
                                  end)) (collection "supply" st)
                 = filter (category_selects category) (collection "supply" st)).
  { apply filter_ext. intros d.
    destruct category as [c|]; [|reflexivity].
    unfold truthy, category_selects. destruct (String.eqb c ""); simpl;
      [reflexivity|apply matches_equals]. }
  split; [|split; [|split; [|split; [|split]]]].
  - apply Hfirst. unfold list_artworks, reading, get_documents. rewrite Hr.
    cbn [limited]. rewrite Htag. reflexivity.
  - apply Hfirst. unfold list_supplies, reading, get_documents. rewrite Hr.
    cbn [limited].
    exact (f_equal (fun l => (Ok (firstn 100 l), st)) Hcat).
  - apply Hfirst. unfold list_orders, reading, get_documents. rewrite Hr.
    cbn [limited]. rewrite (filter_all _ _ matches_nil). reflexivity.
  - apply Hfirst. unfold list_posts, reading, get_documents. rewrite Hr.
    cbn [limited]. rewrite Htag. reflexivity.
  - apply Hfirst. unfold list_comments, reading, get_documents. rewrite Hr.
    cbn [limited]. rewrite (filter_ext _ _ (matches_equals "post_id" post_id)).
    reflexivity.
  - unfold list_users, reading, get_documents. rewrite Hr. cbn [limited].
    rewrite (filter_all _ _ matches_nil). reflexivity.
Qed.

(** C6. Listing the comments without [post_id] fails with
    MissingRequiredParameter whatever the store is, reachable or not: the
    store is not consulted. With [post_id], a reachable store answers with
    the first 100 comments whose [post_id] is the given one: no other
    record is returned, and no more than 100. *)
Theorem list_comments_needs_post_id (st : store) :
  GET_comments None st = (Raise MissingRequiredParameter, st)
  /\ (forall p,
        reachable st = true ->
        exists l,
          GET_comments (Some p) st = (Ok l, st)
          /\ l = firstn 100 (filter (field_is "post_id" p) (collection "comment" st))
          /\ List.length l <= 100
          /\ Forall (fun d => In d (collection "comment" st)
                               /\ lookup "post_id" (doc_data d) = Some (JStr p)) l).
Proof.
  split; [reflexivity|].
  intros p Hr. eexists. split; [|split; [reflexivity|split]].
  - unfold GET_comments, list_comments, reading, get_documents. rewrite Hr.
    simpl. rewrite (filter_ext _ _ (matches_equals "post_id" p)). reflexivity.
  - apply firstn_le_length.
  - apply Forall_forall. intros d Hd.
    apply firstn_subset in Hd. apply filter_In in Hd.
    destruct Hd as [Hin Hf]. split; [exact Hin|].
    unfold field_is in Hf.
    destruct (lookup "post_id" (doc_data d)) as [v|]; [|discriminate].
    apply is_str_eq in Hf. subst. reflexivity.
Qed.

(** C9. An empty string given for an optional filter parameter is as
    good as no parameter: listing Artworks or Posts with an empty tag, or
    Supplies with an empty category, is listing them with no filter, and on
    a reachable store returns the first records of the collection up to the
    limit. *)
Theorem empty_filter_value_is_no_filter (st : store) :
  list_artworks (Some "") st = list_artworks None st
  /\ list_posts (Some "") st = list_posts None st
  /\ list_supplies (Some "") st = list_supplies None st
  /\ (reachable st = true ->
      list_artworks (Some "") st = (Ok (firstn 50 (collection "artwork" st)), st)
      /\ list_posts (Some "") st = (Ok (firstn 50 (collection "post" st)), st)
      /\ list_supplies (Some "") st = (Ok (firstn 100 (collection "supply" st)), st)).
Proof.
  split; [reflexivity|]. split; [reflexivity|]. split; [reflexivity|].
  intros Hr.
  unfold list_artworks, list_posts, list_supplies, reading, get_documents.
  rewrite Hr. simpl. rewrite !(filter_all _ _ matches_nil).
  repeat split.
Qed.

(** C5, as amended. With a tag that is not the empty string, listing
    Artworks or Posts on a reachable store returns the first 50, in the
    store's order, of the records whose tags contain the tag; when at most
    50 records have the tag, the result is exactly those records. *)
Theorem tag_filter_up_to_limit (st : store) (tag : string) :
  tag <> "" ->
  reachable st = true ->
  list_artworks (Some tag) st
  = (Ok (firstn 50 (filter (has_tag tag) (collection "artwork" st))), st)
  /\ list_posts (Some tag) st
     = (Ok (firstn 50 (filter (has_tag tag) (collection "post" st))), st)
  /\ (List.length (filter (has_tag tag) (collection "artwork" st)) <= 50 ->
      tag_filter_exact list_artworks "artwork" st tag)
  /\ (List.length (filter (has_tag tag) (collection "post" st)) <= 50 ->
      tag_filter_exact list_posts "post" st tag).
Proof.
  intros Ht Hr.
  pose proof (list_artworks_tag st tag Ht Hr) as Ha.
  pose proof (list_posts_tag st tag Ht Hr) as Hp.
  split; [exact Ha|]. split; [exact Hp|]. split; intros Hn.
  - exists (filter (has_tag tag) (collection "artwork" st)). split.
    + rewrite Ha. cbn [fst]. rewrite (firstn_all2 _ Hn). reflexivity.
    + intros d. apply filter_In.
  - exists (filter (has_tag tag) (collection "post" st)). split.
    + rewrite Hp. cbn [fst]. rewrite (firstn_all2 _ Hn). reflexivity.
    + intros d. apply filter_In.
Qed.

End Listing.

(** ** The listing properties on stores reached through the API *)

Lemma list_limits_witness :
  reachable (Run.orders 60) = true
  /\ lists_first 50 (collection "order" (Run.orders 60)) list_orders (Run.orders 60)
  /\ list_users (Run.orders 60) = (Ok (collection "user" (Run.orders 60)), Run.orders 60).
Proof.
  assert (Hr : reachable (Run.orders 60) = true) by (vm_compute; reflexivity).
  split; [exact Hr|].
  destruct (list_limits (Run.orders 60) None None "p1" Hr)
    as [_ [_ [Ho [_ [_ Hu]]]]].
  split; [exact Ho|exact Hu].
Defined.

(** Sixty artworks created: the list has exactly fifty. Sixty users
    created: the list has all sixty. *)
Example sixty_created_fifty_listed :
  (exists l, fst (list_artworks None (Run.artworks 60 "abstract" Run.empty_store)) = Ok l
             /\ List.length l = 50)
  /\ (exists l, fst (list_users (Run.users 60)) = Ok l /\ List.length l = 60).
Proof.
  split; eexists; (split; [vm_compute; reflexivity|vm_compute; reflexivity]).
Qed.

(** Sixty orders created: the list has the first fifty. Two supplies in a
    store of 120: a hundred are listed. *)
Example sixty_orders_fifty_listed :
  (exists l, fst (list_orders (Run.orders 60)) = Ok l
             /\ map doc_id l = seq 0 50)
  /\ (exists l, fst (list_supplies None (Run.supplies 120 "Paints" Run.empty_store)) = Ok l
                /\ map doc_id l = seq 0 100).
Proof.
  split; eexists; (split; [vm_compute; reflexivity|vm_compute; reflexivity]).
Qed.

Lemma list_comments_needs_post_id_witness :
  GET_comments None Run.down_store = (Raise MissingRequiredParameter, Run.down_store)
  /\ exists l,
       GET_comments (Some "p1") (Run.comments 2 "p1" (Run.comments 1 "p2" Run.empty_store))
       = (Ok l, Run.comments 2 "p1" (Run.comments 1 "p2" Run.empty_store))
       /\ map doc_id l = [1; 2].
Proof.
  split.
  - apply (proj1 (list_comments_needs_post_id Run.down_store)).
  - destruct (proj2 (list_comments_needs_post_id
                       (Run.comments 2 "p1" (Run.comments 1 "p2" Run.empty_store)))
                    "p1" eq_refl) as [l [Hl [Heq _]]].
    exists l. split; [exact Hl|]. rewrite Heq. vm_compute. reflexivity.
Defined.

Lemma empty_filter_value_is_no_filter_witness :
  list_artworks (Some "") (Run.artworks 1 "abstract" Run.empty_store)
  = (Ok (firstn 50 (collection "artwork" (Run.artworks 1 "abstract" Run.empty_store))),
     Run.artworks 1 "abstract" Run.empty_store).
Proof.
  apply (proj2 (proj2 (proj2 (empty_filter_value_is_no_filter
                                (Run.artworks 1 "abstract" Run.empty_store))))).
  reflexivity.
Defined.

(** C5 as stated fails in two ways: with 51 artworks tagged "abstract",
    listing with that tag leaves one of them out; and listing with the empty
    string as tag returns an artwork whose tags do not contain it. *)
Lemma tag_filter_not_exact :
  ~ tag_filter_exact list_artworks "artwork"
      (Run.artworks 51 "abstract" Run.empty_store) "abstract"
  /\ ~ tag_filter_exact list_artworks "artwork"
        (Run.artworks 1 "abstract" Run.empty_store) "".
Proof.
  split; intros [l [Hl Hiff]].
  - set (st := Run.artworks 51 "abstract" Run.empty_store) in *.
    set (d := nth 50 (collection "artwork" st) {| doc_id := 0; doc_data := [] |}).
    assert (Hd : In d (collection "artwork" st) /\ has_tag "abstract" d = true).
    { split; [|vm_compute; reflexivity].
      apply nth_In. vm_compute. repeat constructor. }
    apply Hiff in Hd.
    assert (Hc : fst (list_artworks (Some "abstract") st)
                 = Ok (firstn 50 (collection "artwork" st)))
      by (vm_compute; reflexivity).
    rewrite Hc in Hl. inversion Hl; subst l.
    apply (in_map doc_id) in Hd.
    assert (Hno : existsb (Nat.eqb (doc_id d))
                    (map doc_id (firstn 50 (collection "artwork" st))) = false)
      by (vm_compute; reflexivity).
    assert (Hyes : existsb (Nat.eqb (doc_id d))
                     (map doc_id (firstn 50 (collection "artwork" st))) = true).
    { apply existsb_exists. exists (doc_id d). split; [exact Hd|apply Nat.eqb_refl]. }
    rewrite Hno in Hyes. discriminate.
  - set (st := Run.artworks 1 "abstract" Run.empty_store) in *.
    set (d := nth 0 (collection "artwork" st) {| doc_id := 0; doc_data := [] |}).
    assert (Hc : fst (list_artworks (Some "") st) = Ok [d])
      by (vm_compute; reflexivity).
    rewrite Hc in Hl. inversion Hl; subst l.
    destruct (proj1 (Hiff d) (or_introl eq_refl)) as [_ Ht].
    vm_compute in Ht. discriminate.
Qed.

Lemma tag_filter_up_to_limit_witness :
  "abstract" <> ""
  /\ reachable (Run.artworks 1 "portrait" (Run.artworks 1 "abstract" Run.empty_store)) = true
  /\ tag_filter_exact list_artworks "artwork"
       (Run.artworks 1 "portrait" (Run.artworks 1 "abstract" Run.empty_store))
       "abstract".
Proof.
  assert (Ht : "abstract" <> "") by discriminate.
  assert (Hr : reachable (Run.artworks 1 "portrait"
                            (Run.artworks 1 "abstract" Run.empty_store)) = true)
    by reflexivity.
  split; [exact Ht|]. split; [exact Hr|].
  apply (proj1 (proj2 (proj2 (tag_filter_up_to_limit _ "abstract" Ht Hr)))).
  vm_compute. repeat constructor.
Defined.

(** The specification's example: of an artwork tagged "abstract" and one
    tagged "portrait", listing with tag "abstract" returns the first only. *)
Example abstract_only :
  exists l,
    fst (list_artworks (Some "abstract")
           (Run.artworks 1 "portrait" (Run.artworks 1 "abstract" Run.empty_store)))
    = Ok l
    /\ map doc_id l = [0].
Proof. eexists. split; vm_compute; reflexivity. Qed.

(* ===================================================================== *)
(** * Further properties of the schemas *)
(* ===================================================================== *)

Lemma nodupb_NoDup (l : list string) : nodupb l = true -> NoDup l.
Proof.
  induction l as [|x l IH]; simpl; intros H; [constructor|].
  apply andb_true_iff in H. destruct H as [Hx Hl].
  constructor; [|apply IH; exact Hl].
  intros Hin. apply negb_true_iff in Hx.
  assert (Ht : existsb (String.eqb x) l = true).
  { apply existsb_exists. exists x. split; [exact Hin|apply String.eqb_refl]. }
  rewrite Ht in Hx. discriminate.
Qed.

(** The field names of a schema that is written out are distinct. *)
Ltac distinct_names := apply nodupb_NoDup; vm_compute; reflexivity.

Section Models.
Context {C : Conv}.

Lemma validate_fields_keys (s : schema) (o doc : dict) :
  validate_fields s o = Some doc -> keys doc = map fname s.
Proof.
  revert doc. induction s as [|f s IH]; simpl; intros doc H.
  - inversion H. reflexivity.
  - destruct (validate_field f o) as [y|]; [|discriminate].
    destruct (validate_fields s o) as [doc'|]; [|discriminate].
    simpl in H. inversion H. unfold keys. simpl. f_equal. apply (IH doc' eq_refl).
Qed.

Lemma validate_fields_agree (s : schema) (o o' : dict) :
  agree_on s o o' -> validate_fields s o' = validate_fields s o.
Proof.
  unfold agree_on. induction s as [|f s IH]; intros H; [reflexivity|].
  simpl. unfold validate_field. rewrite (H f (or_introl eq_refl)).
  rewrite IH; [reflexivity|]. intros g Hg. apply H. right. exact Hg.
Qed.

(** A valid model has a value under each of its fields. *)
Lemma validate_fields_field (s : schema) (o doc : dict) (f : field) :
  NoDup (map fname s) ->
  validate_fields s o = Some doc ->
  In f s ->
  exists y, validate_field f o = Some y /\ lookup (fname f) doc = Some y.
Proof.
  intros Hnd Hv Hin.
  pose proof (validate_fields_lookup s o doc f Hnd Hv Hin) as Hl.
  destruct (validate_field f o) as [y|] eqn:Hf.
  - exists y. split; [reflexivity|exact Hl].
  - rewrite (validate_fields_invalid s o f Hin Hf) in Hv. discriminate.
Qed.

Lemma validate_fields_default (s : schema) (o doc : dict)
    (n : string) (t : ftype) (d : json) :
  NoDup (map fname s) ->
  validate_fields s o = Some doc ->
  In (n, t, Default d) s ->
  defaulted o doc n d.
Proof.
  intros Hnd Hv Hin Hnone.
  pose proof (validate_fields_lookup s o doc _ Hnd Hv Hin) as Hl.
  unfold validate_field in Hl. cbn [fname fdefault fst snd] in Hl.
  rewrite Hnone in Hl. exact Hl.
Qed.

(** An enumerated field of a valid model holds a member of its set, given
    or defaulted. *)
Lemma validate_fields_literal (s : schema) (o doc : dict) (n : string)
    (choices : list string) (c0 : string) :
  NoDup (map fname s) ->
  validate_fields s o = Some doc ->
  In (n, TLiteral choices, Default (JStr c0)) s ->
  In c0 choices ->
  one_of doc n choices.
Proof.
  intros Hnd Hv Hin H0.
  destruct (validate_fields_field s o doc _ Hnd Hv Hin) as [y [Hf Hl]].
  cbn [fname fst snd] in Hl. unfold validate_field in Hf.
  cbn [fname ftyp fdefault fst snd] in Hf.
  destruct (lookup n o) as [v|].
  - simpl in Hf. destruct v; try discriminate.
    destruct (existsb (String.eqb s0) choices) eqn:E; simpl in Hf; [|discriminate].
    inversion Hf; subst y. exists s0. split; [exact Hl|].
    apply existsb_exists in E. destruct E as [c [Hc Heq]].
    apply String.eqb_eq in Heq. subst. exact Hc.
  - inversion Hf; subst y. exists c0. split; assumption.
Qed.

(** A required float field with a lower bound holds a float above it. *)
Lemma validate_fields_float_ge (s : schema) (o doc : dict) (n : string) (lo : float) :
  NoDup (map fname s) ->
  validate_fields s o = Some doc ->
  In (n, TFloat (Some lo), Required) s ->
  exists x, lookup n doc = Some (JFloat x) /\ fle lo x = true.
Proof.
  intros Hnd Hv Hin.
  destruct (validate_fields_field s o doc _ Hnd Hv Hin) as [y [Hf Hl]].
  cbn [fname fst snd] in Hl. unfold validate_field in Hf.
  cbn [fname ftyp fdefault fst snd] in Hf.
  destruct (lookup n o) as [v|]; [|discriminate].
  simpl in Hf. destruct (conv_float v) as [x|]; [|discriminate].
  unfold ge_float in Hf. destruct (fle lo x) eqn:E; simpl in Hf; [|discriminate].
  inversion Hf; subst y. exists x. split; assumption.
Qed.

(** An int field with a lower bound and a default above it holds an int
    above the bound. *)
Lemma validate_fields_int_ge (s : schema) (o doc : dict) (n : string) (lo z0 : Z) :
  NoDup (map fname s) ->
  validate_fields s o = Some doc ->
  In (n, TInt (Some lo), Default (JInt z0)) s ->
  (lo <= z0)%Z ->
  exists z, lookup n doc = Some (JInt z) /\ (lo <= z)%Z.
Proof.
  intros Hnd Hv Hin H0.
  destruct (validate_fields_field s o doc _ Hnd Hv Hin) as [y [Hf Hl]].
  cbn [fname fst snd] in Hl. unfold validate_field in Hf.
  cbn [fname ftyp fdefault fst snd] in Hf.
  destruct (lookup n o) as [v|].
  - simpl in Hf. destruct (conv_int v) as [z|]; [|discriminate].
    unfold ge_int in Hf. destruct (Z.leb lo z) eqn:E; simpl in Hf; [|discriminate].
    inversion Hf; subst y. exists z. split; [exact Hl|].
    apply Z.leb_le. exact E.
  - inversion Hf; subst y. exists z0. split; assumption.
Qed.

(** X2. A validated model has exactly the fields its class declares, in the
    order of declaration: keys of the input that the class does not declare
    are not part of it. *)
Theorem model_has_declared_fields (s : schema) (v : json) (doc : dict) :
  validate_model s v = Some doc -> keys doc = map fname s.
Proof.
  rewrite validate_model_fields.
  destruct (conv_dict v) as [o|]; [|discriminate].
  apply validate_fields_keys.
Qed.

Context {CE : ConvExact C}.

Lemma validate_model_obj (s : schema) (o : dict) :
  validate_model s (JObj o) = validate_fields s o.
Proof. rewrite validate_model_fields, conv_dict_exact. reflexivity. Qed.

(** X1. A request body is read through the fields its model declares and
    nothing else: two bodies that agree on those fields get the same answer
    from a route, whatever other keys they carry. *)
Theorem undeclared_keys_ignored (s : schema) (h : dict -> Main.handler nat)
    (o o' : dict) (st : store) :
  agree_on s o o' ->
  with_model s h (JObj o') st = with_model s h (JObj o) st.
Proof.
  intros H. unfold with_model. rewrite !validate_model_obj.
  rewrite (validate_fields_agree s o o' H). reflexivity.
Qed.

End Models.

(** The default of a field of a schema that is written out. *)
Ltac by_default Hnd Hv :=
  eapply validate_fields_default; [exact Hnd | exact Hv | in_schema].

Section Entities.
Context {C : Conv} {CE : ConvExact C}.

(** X3. A validated User has a role among artist, collector and both, and
    the fields the input leaves out take their defaults: role "both", bio
    the empty string, is_active true, avatar_url and location null. *)
Theorem validated_user (o doc : dict) :
  validate_model Schemas.User (JObj o) = Some doc ->
  one_of doc "role" ["artist"; "collector"; "both"]
  /\ defaulted o doc "role" (JStr "both")
  /\ defaulted o doc "avatar_url" JNull
  /\ defaulted o doc "bio" (JStr "")
  /\ defaulted o doc "location" JNull
  /\ defaulted o doc "is_active" (JBool true).
Proof.
  rewrite validate_model_obj. intros Hv.
  assert (Hnd : NoDup (map fname Schemas.User)) by distinct_names.
  split; [|repeat split; by_default Hnd Hv].
  eapply validate_fields_literal; [exact Hnd | exact Hv | in_schema | in_schema].
Qed.

(** X4. A validated Artwork has an availability status among available,
    reserved, sold and commission_only, and the fields the input leaves out
    take their defaults: status "available", no images, no tags, the three
    shipping options, likes and views 0, the optional texts and the year
    null. *)
Theorem validated_artwork (o doc : dict) :
  validate_model Schemas.Artwork (JObj o) = Some doc ->
  one_of doc "availability_status" ["available"; "reserved"; "sold"; "commission_only"]
  /\ defaulted o doc "availability_status" (JStr "available")
  /\ defaulted o doc "images" (JList [])
  /\ defaulted o doc "tags" (JList [])
  /\ defaulted o doc "shipping_options"
       (JList [JStr "artist-arranged"; JStr "insured-courier"; JStr "local-pickup"])
  /\ defaulted o doc "likes" (JInt 0)
  /\ defaulted o doc "views" (JInt 0)
  /\ defaulted o doc "story" JNull
  /\ defaulted o doc "media" JNull
  /\ defaulted o doc "dimensions" JNull
  /\ defaulted o doc "year" JNull
  /\ defaulted o doc "price_range" JNull
  /\ defaulted o doc "location" JNull.
Proof.
  rewrite validate_model_obj. intros Hv.
  assert (Hnd : NoDup (map fname Schemas.Artwork)) by distinct_names.
  split; [|repeat split; by_default Hnd Hv].
  eapply validate_fields_literal; [exact Hnd | exact Hv | in_schema | in_schema].
Qed.

(** X5. A validated PurchaseRequest has a status among new, in_review,
    accepted and declined; a request sent without status is "new", and
    without message has the empty message. *)
Theorem validated_purchase_request (o doc : dict) :
  validate_model Schemas.PurchaseRequest (JObj o) = Some doc ->
  one_of doc "status" ["new"; "in_review"; "accepted"; "declined"]
  /\ defaulted o doc "status" (JStr "new")
  /\ defaulted o doc "message" (JStr "").
Proof.
  rewrite validate_model_obj. intros Hv.
  assert (Hnd : NoDup (map fname Schemas.PurchaseRequest)) by distinct_names.
  split; [|repeat split; by_default Hnd Hv].
  eapply validate_fields_literal; [exact Hnd | exact Hv | in_schema | in_schema].
Qed.

(** X6. A validated Supply holds a float price that is >= 0 and an int
    stock that is >= 0; a supply sent without stock has stock 0, without
    images none, without description or brand null. *)
Theorem validated_supply (o doc : dict) :
  validate_model Schemas.Supply (JObj o) = Some doc ->
  (exists x, lookup "price" doc = Some (JFloat x) /\ fle fzero x = true)
  /\ (exists z, lookup "stock" doc = Some (JInt z) /\ (0 <= z)%Z)
  /\ defaulted o doc "stock" (JInt 0)
  /\ defaulted o doc "images" (JList [])
  /\ defaulted o doc "description" JNull
  /\ defaulted o doc "brand" JNull.
Proof.
  rewrite validate_model_obj. intros Hv.
  assert (Hnd : NoDup (map fname Schemas.Supply)) by distinct_names.
  split; [|split; [|repeat split; by_default Hnd Hv]].
  - eapply (validate_fields_float_ge Schemas.Supply o doc "price" Schemas.zero Hnd Hv).
    in_schema.
  - eapply (validate_fields_int_ge Schemas.Supply o doc "stock" 0%Z 0%Z Hnd Hv);
      [in_schema|lia].
Qed.

(** X7. A Post sent without images, tags, likes or comments_count is
    validated with no images, no tags and both counters 0; a Comment sent
    without likes or created_at has likes 0 and no timestamp. *)
Theorem validated_post_and_comment (o doc : dict) :
  (validate_model Schemas.Post (JObj o) = Some doc ->
   defaulted o doc "images" (JList [])
   /\ defaulted o doc "tags" (JList [])
   /\ defaulted o doc "likes" (JInt 0)
   /\ defaulted o doc "comments_count" (JInt 0))
  /\ (validate_model Schemas.Comment (JObj o) = Some doc ->
      defaulted o doc "likes" (JInt 0)
      /\ defaulted o doc "created_at" JNull).
Proof.
  split; rewrite validate_model_obj; intros Hv.
  - assert (Hnd : NoDup (map fname Schemas.Post)) by distinct_names.
    repeat split; by_default Hnd Hv.
  - assert (Hnd : NoDup (map fname Schemas.Comment)) by distinct_names.
    repeat split; by_default Hnd Hv.
Qed.

(** X8. Creating a User or a PurchaseRequest from an input that lacks a
    required field, or that gives role or status a value outside its set,
    fails with ValidationFailure and leaves the store as it was. *)
Theorem user_and_request_rejected (o : dict) (st : store) :
  (missing_required Schemas.User o || outside_enum Schemas.User o = true ->
   POST_users (JObj o) st = (Raise ValidationFailure, st))
  /\ (missing_required Schemas.PurchaseRequest o
        || outside_enum Schemas.PurchaseRequest o = true ->
      POST_purchase_requests (JObj o) st = (Raise ValidationFailure, st)).
Proof.
  split; intros H; apply orb_true_iff in H;
    apply with_model_invalid;
    (destruct H as [H|H];
     [apply missing_required_invalid | apply outside_enum_invalid]; exact H).
Qed.

End Entities.

(* ===================================================================== *)
(** * Further properties of [create_order] *)
(* ===================================================================== *)

Lemma all_valid_Forall2 {A B : Type} (f : A -> option B) (l : list A) (l' : list B) :
  all_valid f l = Some l' -> Forall2 (fun x y => f x = Some y) l l'.
Proof.
  revert l'. induction l as [|x l IH]; simpl; intros l' H.
  - inversion H. constructor.
  - destruct (f x) as [y|] eqn:Hx; [|discriminate].
    destruct (all_valid f l) as [r|]; [|discriminate].
    simpl in H. inversion H. constructor; [exact Hx|apply IH; reflexivity].
Qed.

Section MoreOrders.
Context {SP : StrParse}.

(** X14. The total is computed from left to right: the total of [xs ++ ys]
    continues from the total of [xs], and when an item of [xs] raises, that
    exception is the outcome and [ys] is not looked at. *)
Theorem order_total_app (xs ys : list dict) (acc : float) :
  order_total (xs ++ ys) acc = (t <- order_total xs acc ;; order_total ys t).
Proof.
  revert acc. induction xs as [|item xs IH]; intros acc; [reflexivity|].
  rewrite <- app_comm_cons, !order_total_step.
  destruct (spec_line item) as [x|e]; simpl; [apply IH|reflexivity].
Qed.

(** A line that cannot be computed makes the loop raise. *)
Lemma order_total_fails (its : list dict) (item : dict) (e : exn) (acc : float) :
  In item its -> spec_line item = Raise e ->
  exists e', order_total its acc = Raise e'.
Proof.
  revert acc. induction its as [|i its IH]; simpl; [tauto|].
  intros acc [->|Hin] He.
  - exists e. change (order_total (item :: its) acc = Raise e).
    rewrite order_total_step, He. reflexivity.
  - change (exists e', order_total (i :: its) acc = Raise e').
    rewrite order_total_step.
    destruct (spec_line i) as [x|e0]; simpl; [apply IH; assumption|].
    exists e0. reflexivity.
Qed.

Lemma null_line (item : dict) :
  lookup "price" item = Some JNull \/ lookup "quantity" item = Some JNull ->
  exists e, spec_line item = Raise e.
Proof.
  unfold spec_line, spec_price, spec_quantity. intros [H|H]; rewrite H; simpl.
  - exists TypeError. reflexivity.
  - destruct (match lookup "price" item with
              | Some v => py_float v
              | None => Ok fzero
              end) as [p|e]; simpl; eexists; reflexivity.
Qed.

Context {C : Conv}.

(** X13. A price or a quantity that is present but null is not replaced by
    the default: an order with such an item is not stored, [create_order]
    raises and the store is unchanged; when the first item has a null price
    the exception is TypeError. *)
Theorem null_is_not_defaulted (order : OrderInput) (st : store) (item : dict) :
  In item (items order) ->
  lookup "price" item = Some JNull \/ lookup "quantity" item = Some JNull ->
  (exists e, create_order order st = (Raise e, st))
  /\ (forall rest, items order = item :: rest ->
                   lookup "price" item = Some JNull ->
                   create_order order st = (Raise TypeError, st)).
Proof.
  intros Hin Hnull. split.
  - destruct (null_line item Hnull) as [e He].
    destruct (order_total_fails _ _ _ fzero Hin He) as [e' He'].
    exists e'. unfold create_order, order_doc. rewrite He'. reflexivity.
  - intros rest Hrest Hp. unfold create_order, order_doc. rewrite Hrest.
    rewrite order_total_step. unfold spec_line, spec_price. rewrite Hp.
    reflexivity.
Qed.

Context {CE : ConvExact C}.

(** X10. [create_order] builds an order exactly when every line can be
    computed, their sum is >= 0 and every raw item is a valid OrderItem; the
    order then has the buyer's three fields as sent, the validated items,
    the sum as total and status "pending". *)
Theorem order_doc_characterised (order : OrderInput) (doc : dict) :
  order_doc order = Ok doc <->
  exists lines its,
    Forall2 (fun item x => spec_line item = Ok x) (items order) lines
    /\ fle fzero (fsum lines) = true
    /\ all_valid (validate (TModel Schemas.OrderItem)) (map JObj (items order))
       = Some its
    /\ doc = order_record order its (fsum lines).
Proof.
  split.
  - intros Hd.
    destruct (order_doc_fields _ _ Hd) as [total [Ht [Hge [_ [_ [its [_ Hits]]]]]]].
    destruct (order_total_sound _ _ _ Ht) as [lines [Hl Hsum]].
    exists lines, its. subst total. fold (fsum lines) in Hge.
    repeat split; try assumption.
    pose proof (order_doc_complete order lines its Hl Hge Hits) as Hc.
    rewrite Hd in Hc. inversion Hc. reflexivity.
  - intros [lines [its [Hl [Hge [Hits ->]]]]].
    apply order_doc_complete; assumption.
Qed.

(** X11. In an order that [create_order] builds, the items are the raw
    items one for one, each reduced to the four fields of OrderItem with a
    float price and an int quantity that is at least 1 (1 when the raw item
    had none), and the total is >= 0. *)
Theorem stored_order_items (order : OrderInput) (doc : dict) :
  order_doc order = Ok doc ->
  exists its total,
    lookup "items" doc = Some (JList its)
    /\ Forall2 stored_item (items order) its
    /\ lookup "total_amount" doc = Some (JFloat total)
    /\ fle fzero total = true.
Proof.
  intros Hd.
  destruct (order_doc_fields _ _ Hd) as [total [_ [Hge [Hta [_ [its [Hi Hits]]]]]]].
  exists its, total. repeat split; try assumption.
  apply all_valid_Forall2 in Hits.
  clear Hi Hta Hge Hd.
  remember (items order) as raw eqn:Hraw. clear Hraw.
  revert its Hits. induction raw as [|item raw IH]; intros its Hits.
  - inversion Hits. constructor.
  - cbn [map] in Hits. inversion Hits as [|x y l l' Hxy Hrest]; subst.
    constructor; [|apply IH; exact Hrest].
    cbv beta in Hxy. rewrite validate_TModel, conv_dict_exact in Hxy.
    destruct (validate_fields Schemas.OrderItem item) as [d|] eqn:Hv; [|discriminate].
    simpl in Hxy. inversion Hxy; subst y.
    assert (Hnd : NoDup (map fname Schemas.OrderItem)) by distinct_names.
    destruct (validate_fields_int_ge Schemas.OrderItem item d "quantity" 1%Z 1%Z
                Hnd Hv ltac:(in_schema) ltac:(lia)) as [z [Hz Hz1]].
    destruct (validate_fields_field Schemas.OrderItem item d
                ("price", TFloat None, Required) Hnd Hv ltac:(in_schema))
      as [p [Hp Hlp]].
    cbn [fname fst snd] in Hlp. unfold validate_field in Hp.
    cbn [fname ftyp fdefault fst snd] in Hp.
    destruct (lookup "price" item) as [v|]; [|discriminate].
    simpl in Hp. destruct (conv_float v) as [x|]; [|discriminate].
    simpl in Hp. inversion Hp; subst p.
    exists d, x, z. repeat split; try assumption.
    + apply (validate_fields_keys _ _ _ Hv).
    + by_default Hnd Hv.
Qed.

(** X12. An order without items is built: its total is 0.0, its list of
    items is empty, and it is handed to the store as any other order. *)
Theorem empty_order_accepted (order : OrderInput) (st : store) :
  items order = [] ->
  order_doc order = Ok (order_record order [] fzero)
  /\ create_order order st
     = create_document "order" (order_record order [] fzero) st.
Proof.
  intros He.
  assert (Hd : order_doc order = Ok (order_record order [] fzero)).
  { apply (order_doc_complete order [] []).
    - rewrite He. constructor.
    - reflexivity.
    - rewrite He. reflexivity. }
  split; [exact Hd|]. unfold create_order. rewrite Hd. reflexivity.
Qed.

(** X9. A body of an order that lacks one of buyer_name, buyer_email,
    shipping_address and items, or whose items is not a list, is answered
    with ValidationFailure: no total is computed and the store is unchanged. *)
Theorem order_input_rejected (o : dict) (st : store) :
  ((exists k, In k OrderInput_keys /\ lookup k o = None) ->
   POST_orders (JObj o) st = (Raise ValidationFailure, st))
  /\ ((forall l, lookup "items" o <> Some (JList l)) ->
      POST_orders (JObj o) st = (Raise ValidationFailure, st)).
Proof.
  assert (Hcases : forall a b c d : option json,
             a = None \/ b = None \/ c = None \/ (forall l, d <> Some (JList l)) ->
             match option_map conv_str a, option_map conv_str b,
                   option_map conv_str c, d with
             | Some (Some n), Some (Some e), Some (Some ad), Some (JList l) =>
                 option_map (Build_OrderInput n e ad) (all_valid conv_dict l)
             | _, _, _, _ => None
             end = None).
  { intros a b c d H.
    destruct a as [a|], b as [b|], c as [c|]; simpl;
      repeat match goal with
             | |- context [conv_str ?v] => destruct (conv_str v)
             end;
      try reflexivity;
      try (destruct H as [H|[H|[H|H]]]; discriminate).
    destruct d as [[| | | | |l|]|]; try reflexivity.
    exfalso. destruct H as [H|[H|[H|H]]]; try discriminate.
    apply (H l). reflexivity. }
  assert (Hbad : lookup "buyer_name" o = None \/ lookup "buyer_email" o = None
                 \/ lookup "shipping_address" o = None
                 \/ (forall l, lookup "items" o <> Some (JList l)) ->
                 POST_orders (JObj o) st = (Raise ValidationFailure, st)).
  { intros H. unfold POST_orders, validate_OrderInput.
    rewrite conv_dict_exact, (Hcases _ _ _ _ H). reflexivity. }
  split.
  - intros [k [Hin Hk]]. apply Hbad. simpl in Hin.
    destruct Hin as [<-|[<-|[<-|[<-|[]]]]]; auto.
    right. right. right. intros l Hl. rewrite Hk in Hl. discriminate.
  - intros Hl. apply Hbad. auto.
Qed.

End MoreOrders.

(* ===================================================================== *)
(** * Further properties of the list handlers *)
(* ===================================================================== *)

(** X15. With a category that is not the empty string, listing the
    Supplies on a reachable store returns the first 100, in the store's
    order, of the supplies whose category is that string; every record
    returned has that category. *)
Theorem list_supplies_category (st : store) (category : string) :
  category <> "" ->
  reachable st = true ->
  list_supplies (Some category) st
  = (Ok (firstn 100 (filter (field_is "category" category) (collection "supply" st))),
     st)
  /\ Forall (fun d => lookup "category" (doc_data d) = Some (JStr category))
        (firstn 100 (filter (field_is "category" category) (collection "supply" st))).
Proof.
  intros Hc Hr. split.
  - unfold list_supplies, reading, get_documents, truthy. rewrite Hr.
    destruct (String.eqb category "") eqn:E.
    + apply String.eqb_eq in E. contradiction.
    + simpl. rewrite (filter_ext _ _ (matches_equals "category" category)).
      reflexivity.
  - apply Forall_forall. intros d Hd.
    apply firstn_subset in Hd. apply filter_In in Hd. destruct Hd as [_ Hf].
    unfold field_is in Hf.
    destruct (lookup "category" (doc_data d)) as [v|]; [|discriminate].
    apply is_str_eq in Hf. subst. reflexivity.
Qed.

(* ===================================================================== *)
(** * Properties of the diagnostics *)
(* ===================================================================== *)

Lemma str_prefix_len (n : nat) (s : string) : str_len (str_prefix n s) <= n.
Proof.
  revert n. induction s as [|c r IH]; intros n; simpl; [lia|].
  destruct (continuation c) eqn:E.
  - simpl. rewrite E. apply IH.
  - destruct n as [|k]; simpl; [lia|]. rewrite E. specialize (IH k). lia.
Qed.

Lemma str_prefix_starts (n : nat) (s : string) :
  exists rest, s = (str_prefix n s ++ rest)%string.
Proof.
  revert n. induction s as [|c r IH]; intros n; simpl.
  - exists EmptyString. reflexivity.
  - destruct (continuation c).
    + destruct (IH n) as [rest Hr]. exists rest. simpl. rewrite <- Hr. reflexivity.
    + destruct n as [|k].
      * exists (String c r). reflexivity.
      * destruct (IH k) as [rest Hr]. exists rest. simpl. rewrite <- Hr. reflexivity.
Qed.

Lemma str_prefix_short (n : nat) (s : string) :
  str_len s <= n -> str_prefix n s = s.
Proof.
  revert n. induction s as [|c r IH]; intros n; simpl; [reflexivity|].
  destruct (continuation c).
  - intros H. rewrite (IH n H). reflexivity.
  - destruct n as [|k]; intros H; [lia|]. rewrite (IH k); [reflexivity|lia].
Qed.

(** X16. In the report of the diagnostics, database_url and database_name
    tell whether the environment variables DATABASE_URL and DATABASE_NAME
    are set to a non-empty string, and nothing else: whatever the handle is,
    what was written under these keys before (the name of the database
    among it) is overwritten. *)
Theorem diagnostics_report_environment
    (db : option db_handle) (getenv : string -> option string) :
  lookup "database_url" (test_database db getenv)
  = Some (env_flag (getenv "DATABASE_URL"))
  /\ lookup "database_name" (test_database db getenv)
     = Some (env_flag (getenv "DATABASE_NAME")).
Proof.
  destruct db as [[[[n|m]|] [cs|m']]|]; split; reflexivity.
Qed.

(** X17. The report lists at most 10 collections, each one a name that the
    handle returned; when the handle is there, its name can be read and the
    listing succeeds, they are the first 10 names returned. *)
Theorem diagnostics_collections
    (db : option db_handle) (getenv : string -> option string) :
  exists l,
    lookup "collections" (test_database db getenv) = Some (JList l)
    /\ List.length l <= 10
    /\ (forall x, In x l ->
                  exists d names, db = Some d
                                  /\ list_collection_names d = Returned names
                                  /\ In x names)
    /\ (forall d names, db = Some d -> name_readable d ->
                        list_collection_names d = Returned names ->
                        l = firstn 10 names).
Proof.
  destruct db as [[[[n|m]|] [cs|m']]|].
  1, 5: (exists (firstn 10 cs); split; [reflexivity|]; split; [apply firstn_le_length|];
         split;
         [ intros x Hx; eexists; exists cs; split; [reflexivity|];
           split; [reflexivity|apply (firstn_subset 10); exact Hx]
         | intros d names Hd _ Hn; inversion Hd; subst d; simpl in Hn;
           inversion Hn; reflexivity ]).
  all: exists []; split; [reflexivity|]; split; [simpl; lia|];
    split; [intros x []|];
    intros d names Hd Hr Hn; inversion Hd; subst d; simpl in Hn;
    try discriminate;
    exfalso; eapply Hr; reflexivity.
Qed.

(** X18. The diagnostics always answer with the same six keys and report
    the backend as running. Without a handle the database is reported as not
    initialised and not connected; when the listing of the collections
    raises, the report is Connected, with no collection and the first 50
    characters of the exception's text: a prefix of the text of at most 50
    characters, the whole text when it has no more than 50. *)
Theorem diagnostics_report_failures
    (db : option db_handle) (getenv : string -> option string) :
  keys (test_database db getenv)
  = ["backend"; "database"; "database_url"; "database_name";
     "connection_status"; "collections"]
  /\ lookup "backend" (test_database db getenv) = Some (JStr "✅ Running")
  /\ (db = None ->
      lookup "database" (test_database db getenv)
      = Some (JStr "⚠️  Available but not initialized")
      /\ lookup "connection_status" (test_database db getenv)
         = Some (JStr "Not Connected"))
  /\ (forall d msg, db = Some d -> name_readable d ->
                    list_collection_names d = Raised msg ->
                    lookup "database" (test_database db getenv)
                    = Some (JStr ("⚠️  Connected but Error: " ++ str_prefix 50 msg))
                    /\ lookup "connection_status" (test_database db getenv)
                       = Some (JStr "Connected")
                    /\ lookup "collections" (test_database db getenv)
                       = Some (JList []))
  /\ (forall msg,
        str_len (str_prefix 50 msg) <= 50
        /\ (exists rest, msg = (str_prefix 50 msg ++ rest)%string)
        /\ (str_len msg <= 50 -> str_prefix 50 msg = msg)).
Proof.
  split; [destruct db as [[[[n|m]|] [cs|m']]|]; reflexivity|].
  split; [destruct db as [[[[n|m]|] [cs|m']]|]; reflexivity|].
  split; [|split].
  - intros ->. split; reflexivity.
  - intros d msg -> Hr Hm. destruct d as [[[n|m]|] l]; simpl in Hm; subst l.
    + repeat split; reflexivity.
    + exfalso. apply (Hr m). reflexivity.
    + repeat split; reflexivity.
  - intros msg. split; [apply str_prefix_len|].
    split; [apply str_prefix_starts|apply str_prefix_short].
Qed.

(* ===================================================================== *)
(** * The further properties on concrete requests *)
(* ===================================================================== *)

Lemma undeclared_keys_ignored_witness :
  agree_on Schemas.User Run.user_body Run.user_body_with_id
  /\ @POST_users Run.json_conv (JObj Run.user_body_with_id) Run.empty_store
     = @POST_users Run.json_conv (JObj Run.user_body) Run.empty_store.
Proof.
  assert (H : agree_on Schemas.User Run.user_body Run.user_body_with_id).
  { intros f Hin. simpl in Hin.
    repeat (destruct Hin as [<-|Hin]; [reflexivity|]). contradiction. }
  split; [exact H|].
  exact (@undeclared_keys_ignored Run.json_conv json_conv_exact Schemas.User
           create_user _ _ Run.empty_store H).
Defined.

Lemma model_has_declared_fields_witness :
  exists doc,
    @validate_model Run.json_conv Schemas.User (JObj Run.user_body_with_id) = Some doc
    /\ keys doc = ["name"; "email"; "role"; "avatar_url"; "bio"; "location"; "is_active"].
Proof.
  eexists. split; [vm_compute; reflexivity|].
  refine (@model_has_declared_fields Run.json_conv Schemas.User
            (JObj Run.user_body_with_id) _ _).
  vm_compute. reflexivity.
Defined.

Lemma validated_user_witness :
  exists doc,
    @validate_model Run.json_conv Schemas.User (JObj Run.user_body) = Some doc
    /\ lookup "role" doc = Some (JStr "both")
    /\ lookup "is_active" doc = Some (JBool true).
Proof.
  eexists. split; [vm_compute; reflexivity|].
  refine ((fun H => conj (proj1 (proj2 H) eq_refl)
                         (proj2 (proj2 (proj2 (proj2 (proj2 H)))) eq_refl))
            (@validated_user Run.json_conv json_conv_exact Run.user_body _ _)).
  vm_compute. reflexivity.
Defined.

Lemma validated_artwork_witness :
  exists doc,
    @validate_model Run.json_conv Schemas.Artwork (JObj Run.artwork_body) = Some doc
    /\ lookup "availability_status" doc = Some (JStr "available").
Proof.
  eexists. split; [vm_compute; reflexivity|].
  refine (proj1 (proj2 (@validated_artwork Run.json_conv json_conv_exact
                          Run.artwork_body _ _)) eq_refl).
  vm_compute. reflexivity.
Defined.

Lemma validated_purchase_request_witness :
  exists doc,
    @validate_model Run.json_conv Schemas.PurchaseRequest (JObj Run.request_body)
    = Some doc
    /\ lookup "status" doc = Some (JStr "new").
Proof.
  eexists. split; [vm_compute; reflexivity|].
  refine (proj1 (proj2 (@validated_purchase_request Run.json_conv json_conv_exact
                          Run.request_body _ _)) eq_refl).
  vm_compute. reflexivity.
Defined.

Lemma validated_supply_witness :
  exists doc,
    @validate_model Run.json_conv Schemas.Supply
      (JObj (Run.a_supply (JInt 5) (JInt 2))) = Some doc
    /\ exists z, lookup "stock" doc = Some (JInt z) /\ (0 <= z)%Z.
Proof.
  eexists. split; [vm_compute; reflexivity|].
  refine (proj1 (proj2 (@validated_supply Run.json_conv json_conv_exact
                          (Run.a_supply (JInt 5) (JInt 2)) _ _))).
  vm_compute. reflexivity.
Defined.

Lemma validated_post_and_comment_witness :
  exists doc,
    @validate_model Run.json_conv Schemas.Post (JObj Run.post_body) = Some doc
    /\ lookup "likes" doc = Some (JInt 0).
Proof.
  eexists. split; [vm_compute; reflexivity|].
  refine (proj1 (proj2 (proj2
            (proj1 (@validated_post_and_comment Run.json_conv json_conv_exact
                      Run.post_body _) _))) eq_refl).
  vm_compute. reflexivity.
Defined.

Lemma user_and_request_rejected_witness :
  @POST_users Run.json_conv
    (JObj [("name", JStr "Ada"); ("email", JStr "ada@example.org");
           ("role", JStr "admin")]) Run.empty_store
  = (Raise ValidationFailure, Run.empty_store).
Proof.
  apply (proj1 (@user_and_request_rejected Run.json_conv json_conv_exact
                  _ Run.empty_store)).
  reflexivity.
Defined.

Lemma order_input_rejected_witness :
  @POST_orders Run.decimal_parse Run.json_conv
    (JObj [("buyer_name", JStr "Ada"); ("buyer_email", JStr "ada@example.org");
           ("shipping_address", JStr "1 Main Street")]) Run.empty_store
  = (Raise ValidationFailure, Run.empty_store).
Proof.
  apply (proj1 (@order_input_rejected Run.decimal_parse Run.json_conv
                  json_conv_exact _ Run.empty_store)).
  exists "items". split; [unfold OrderInput_keys; in_schema|reflexivity].
Defined.

Lemma order_doc_characterised_witness :
  exists lines its,
    Forall2 (fun item x => @spec_line Run.decimal_parse item = Ok x)
      (items Run.order_input) lines
    /\ fle fzero (fsum lines) = true
    /\ @all_valid json json (@validate Run.json_conv (TModel Schemas.OrderItem))
         (map JObj (items Run.order_input)) = Some its
    /\ Run.order_document = order_record Run.order_input its (fsum lines).
Proof.
  apply (proj1 (@order_doc_characterised Run.decimal_parse Run.json_conv
                  json_conv_exact Run.order_input Run.order_document)).
  vm_compute. reflexivity.
Defined.

Lemma stored_order_items_witness :
  exists its total,
    lookup "items" Run.order_document = Some (JList its)
    /\ Forall2 stored_item (items Run.order_input) its
    /\ lookup "total_amount" Run.order_document = Some (JFloat total)
    /\ fle fzero total = true.
Proof.
  apply (@stored_order_items Run.decimal_parse Run.json_conv json_conv_exact
           Run.order_input Run.order_document).
  vm_compute. reflexivity.
Defined.

Lemma empty_order_accepted_witness :
  @order_doc Run.decimal_parse Run.json_conv Run.empty_order
  = Ok (order_record Run.empty_order [] fzero)
  /\ @create_order Run.decimal_parse Run.json_conv Run.empty_order Run.empty_store
     = create_document "order" (order_record Run.empty_order [] fzero) Run.empty_store.
Proof.
  apply (@empty_order_accepted Run.decimal_parse Run.json_conv json_conv_exact
           Run.empty_order Run.empty_store).
  reflexivity.
Defined.

Lemma null_is_not_defaulted_witness :
  @create_order Run.decimal_parse Run.json_conv
    (Run.one_line_order JNull (JInt 1)) Run.empty_store
  = (Raise TypeError, Run.empty_store).
Proof.
  refine (proj2 (@null_is_not_defaulted Run.decimal_parse Run.json_conv
                   (Run.one_line_order JNull (JInt 1)) Run.empty_store
                   [("supply_id", JStr "s1"); ("title", JStr "Brush");
                    ("price", JNull); ("quantity", JInt 1)] _ _) [] eq_refl eq_refl).
  - simpl. left. reflexivity.
  - left. reflexivity.
Defined.

Lemma list_supplies_category_witness :
  "Paints" <> ""
  /\ list_supplies (Some "Paints")
       (Run.supplies 1 "Brushes" (Run.supplies 2 "Paints" Run.empty_store))
     = (Ok (firstn 100 (filter (field_is "category" "Paints")
                          (collection "supply"
                             (Run.supplies 1 "Brushes"
                                (Run.supplies 2 "Paints" Run.empty_store))))),
        Run.supplies 1 "Brushes" (Run.supplies 2 "Paints" Run.empty_store)).
Proof.
  assert (Hc : "Paints" <> "") by discriminate.
  split; [exact Hc|].
  apply (proj1 (list_supplies_category
                  (Run.supplies 1 "Brushes" (Run.supplies 2 "Paints" Run.empty_store))
                  "Paints" Hc eq_refl)).
Defined.

(** Of two supplies in Paints and one in Brushes, listing the category
    Paints returns the two. A report of the diagnostics with twelve
    collections in the database lists ten; with a listing that fails and the
    database name set to the empty string in the environment, it says so. *)
Example paints_only :
  exists l,
    fst (list_supplies (Some "Paints")
           (Run.supplies 1 "Brushes" (Run.supplies 2 "Paints" Run.empty_store)))
    = Ok l
    /\ map doc_id l = [0; 1].
Proof. eexists. split; vm_compute; reflexivity. Qed.

Example diagnostics_runs :
  lookup "collections" (test_database (Some Run.working_db) Run.an_env)
  = Some (JList (map JStr ["a"; "b"; "c"; "d"; "e"; "f"; "g"; "h"; "i"; "j"]))
  /\ lookup "database" (test_database (Some Run.failing_db) Run.an_env)
     = Some (JStr "⚠️  Connected but Error: connection refused")
  /\ lookup "database_url" (test_database (Some Run.failing_db) Run.an_env)
     = Some (JStr "✅ Set")
  /\ lookup "database_name" (test_database (Some Run.failing_db) Run.an_env)
     = Some (JStr "❌ Not Set").
Proof. repeat split; vm_compute; reflexivity. Qed.

(** The 50 characters are counted as characters, not bytes: of a text of
    sixty check marks the report keeps fifty, and cuts none in two. *)
Example fifty_characters :
  str_prefix 50 (Run.checks 60) = Run.checks 50
  /\ str_len (Run.checks 60) = 60
  /\ String.length (Run.checks 50) = 150
  /\ str_prefix 5 "connection refused" = "conne".
Proof. repeat split; vm_compute; reflexivity. Qed.
